(** * msgvis API views: the data-table planner and the keyword lookup

    A shallow embedding of [msgvis/apps/api/views.py]:
    [add_history], [DataTableView.post] and [KeywordView.get].

    The views are Python 2 code over Django models.  Values of the
    validated request are dynamically typed, so they are embedded as a
    small universe [pyval]; a Python [dict] with string keys is a
    [gmap string pyval]; exceptions are an explicit result type; the
    database tables touched by the views and the order of the calls to
    the collaborators are threaded through a state monad. *)

From Stdlib Require Import ZArith Ascii String List Sorted Permutation.
From stdpp Require Import base option list sorting gmap strings.

Open Scope Z_scope.
Open Scope string_scope.

(** ** Python values *)

(** Modelled from the spec: the dimension registry ([msgvis.apps.dimensions]
    is not part of the sources at hand).  A dimension has a name and one of
    three kinds; [is_categorical()] holds of the categorical kind only. *)
Inductive DimensionKind := Categorical | Continuous | Temporal.

Record Dimension := mkDimension {
  dim_key : string;
  dim_kind : DimensionKind
}.

Definition is_categorical (d : Dimension) : bool :=
  match dim_kind d with Categorical => true | _ => false end.

(** A [corpus_models.Dataset] instance, identified by its primary key. *)
Record Dataset := mkDataset { dataset_pk : Z }.

(** The values that can sit in request data.  Floats are left out.  A
    string is a Python 2 [unicode] object, written with one character
    for each code point; strings with a code point from 256 on are left
    out. *)
#[warnings="-register-all"]
Inductive pyval : Type :=
| PyNone
| PyBool (b : bool)
| PyInt (n : Z)
| PyStr (s : string)
| PyList (xs : list pyval)
| PyDict (kvs : list (string * pyval))
| PyDimension (d : Dimension)
| PyDataset (d : Dataset).

(** Exceptions a view can die with. *)
Inductive exn :=
| KeyError (k : string)
| TypeError
| ValueError
| AttributeError
| IndexError
| DoesNotExist
| CollaboratorError (msg : string).

Inductive Res (A : Type) : Type :=
| Ok (a : A)
| Raise (e : exn).
Arguments Ok {A} a.
Arguments Raise {A} e.

Definition res_bind {A B} (r : Res A) (k : A -> Res B) : Res B :=
  match r with Ok a => k a | Raise e => Raise e end.

#[global] Instance Res_fmap : FMap Res := fun _ _ f r =>
  match r with Ok a => Ok (f a) | Raise e => Raise e end.
#[global] Instance Res_ret : MRet Res := fun _ a => Ok a.
#[global] Instance Res_bind : MBind Res := fun _ _ k r => res_bind r k.

(** ** Builtins *)

(** [d[k]] on a dict. *)
Definition getitem (d : gmap string pyval) (k : string) : Res pyval :=
  match d !! k with
  | Some v => Ok v
  | None => Raise (KeyError k)
  end.

(** [d.get(k, dflt)] and [d.get(k)]. *)
Definition dict_get (d : gmap string pyval) (k : string) (dflt : pyval) : pyval :=
  default dflt (d !! k).

Definition dict_get_none (d : gmap string pyval) (k : string) : pyval :=
  dict_get d k PyNone.

(** Truth value of an object in an [if]. *)
Definition truthy (v : pyval) : bool :=
  match v with
  | PyNone => false
  | PyBool b => b
  | PyInt n => negb (n =? 0)%Z
  | PyStr s => negb (String.eqb s "")
  | PyList xs => match xs with [] => false | _ => true end
  | PyDict kvs => match kvs with [] => false | _ => true end
  | PyDimension _ | PyDataset _ => true
  end.

(** [type(v) == types.ListType] *)
Definition is_ListType (v : pyval) : bool :=
  match v with PyList _ => true | _ => false end.

(** [len(v)] *)
Definition py_len (v : pyval) : Res nat :=
  match v with
  | PyStr s => Ok (String.length s)
  | PyList xs => Ok (List.length xs)
  | PyDict kvs => Ok (List.length kvs)
  | _ => Raise TypeError
  end.

(** [v[0]] *)
Definition py_index0 (v : pyval) : Res pyval :=
  match v with
  | PyList (x :: _) => Ok x
  | PyStr (String c _) => Ok (PyStr (String c EmptyString))
  | PyList [] | PyStr EmptyString => Raise IndexError
  | PyDict _ => Raise (KeyError "0")
  | _ => Raise TypeError
  end.

(** [v.is_categorical()] *)
Definition call_is_categorical (v : pyval) : Res bool :=
  match v with
  | PyDimension d => Ok (is_categorical d)
  | _ => Raise AttributeError
  end.

(** [*v] in an argument list. *)
Definition star_args (v : pyval) : Res (list pyval) :=
  match v with
  | PyList xs => Ok xs
  | PyStr s => Ok ((fun c => PyStr (String c EmptyString)) <$> list_ascii_of_string s)
  | PyDict kvs => Ok ((fun kv => PyStr (fst kv)) <$> kvs)
  | _ => Raise TypeError
  end.

(** *** [int(v)] *)


(** White space as [int] sees it.  The strings of a request are Python 2
    [unicode] objects; a character here stands for one code point below
    256, and among those [Py_UNICODE_ISSPACE] holds of the six above and
    of U+001C to U+001F, U+0085 and U+00A0.  Code points from 256 on are
    outside the strings modelled. *)
Definition is_unicode_space (c : ascii) : bool :=
  match nat_of_ascii c with
  | 9%nat | 10%nat | 11%nat | 12%nat | 13%nat
  | 28%nat | 29%nat | 30%nat | 31%nat | 32%nat | 133%nat | 160%nat => true
  | _ => false
  end.

Fixpoint skip_spaces (s : string) : string :=
  match s with
  | String c r => if is_unicode_space c then skip_spaces r else s
  | EmptyString => EmptyString
  end.

(** Below 256 the only decimal digits are [0] to [9]. *)
Definition digit_value (c : ascii) : option Z :=
  let n := nat_of_ascii c in
  if ((48 <=? n) && (n <=? 57))%nat then Some (Z.of_nat n - 48) else None.

(** The digits at the head of [s]: their value and what follows them.
    [seen] tells whether a digit has been read; [None] when there is
    none. *)
Fixpoint read_digits (acc : Z) (seen : bool) (s : string) : option (Z * string) :=
  match s with
  | String c r =>
      match digit_value c with
      | Some d => read_digits (10 * acc + d) true r
      | None => if seen then Some (acc, s) else None
      end
  | EmptyString => if seen then Some (acc, s) else None
  end.

(** An optional sign at the head of [s]: whether it is a minus, and what
    follows. *)
Definition read_sign (s : string) : bool * string :=
  match s with
  | String "-" r => (true, r)
  | String "+" r => (false, r)
  | _ => (false, s)
  end.

(** [int(s)] of Python 2 on a [unicode] string, base ten: white space, an
    optional sign, white space again (Python 2 allows it after the sign),
    at least one digit, white space, and nothing else.  Every other string
    raises [ValueError] (or its subclass [UnicodeEncodeError], which
    [ValueError] stands for as well). *)
Definition int_of_str (s : string) : Res Z :=
  let (negative, unsigned) := read_sign (skip_spaces s) in
  match read_digits 0 false (skip_spaces unsigned) with
  | Some (n, rest) =>
      match skip_spaces rest with
      | EmptyString => Ok (if negative then - n else n)
      | _ => Raise ValueError
      end
  | None => Raise ValueError
  end.

Definition py_int (v : pyval) : Res Z :=
  match v with
  | PyInt n => Ok n
  | PyBool b => Ok (if b then 1 else 0)
  | PyStr s => int_of_str s
  | _ => Raise TypeError
  end.

(** [a and b], where [b] is only evaluated when [a] is true. *)
Definition py_and (a b : Res bool) : Res bool :=
  match a with
  | Ok true => b
  | Ok false => Ok false
  | Raise e => Raise e
  end.

(** ** The world the views run in *)

(** A row of [groups_models.ActionHistory] as [add_history] fills it
    ([created_at] is set by the database and left out). *)
Record ActionHistory := mkActionHistory {
  ah_type : string;
  ah_contents : string;
  ah_from_server : bool;
  ah_owner : option Z
}.

(** A row of [enhance_models.PrecalcCategoricalDistribution], with the
    columns the keyword query names. *)
Record PrecalcCategoricalDistribution := mkPrecalc {
  pcd_dataset_id : Z;
  pcd_dimension_key : string;
  pcd_level : string;
  pcd_count : Z
}.

(** A row of [enhance_models.TweetWord]. *)
Record TweetWord := mkTweetWord {
  tw_dataset_id : Z;
  tw_text : string
}.

(** [request.user]: an anonymous user has no id. *)
Record RequestUser := mkRequestUser { user_id : option Z }.

(** What a view does to its collaborators, in the order it does it. *)
Inductive event :=
| EvHistorySave (h : ActionHistory)
| EvIsValid (raw : gmap string pyval)
| EvPrecalc (dataset : Dataset) (dimension search_key : pyval)
            (page : option Z) (page_size : Z) (mode : pyval)
| EvDataTable (dimensions : list pyval)
| EvSetMode (mode : pyval)
| EvGenerate (dataset filters exclude : pyval) (page_size : Z) (page : option Z)
             (search_key groups : pyval)
| EvSerialize (response_data : gmap string pyval).

Record World := mkWorld {
  w_users : list Z;                       (* ids of the rows of auth.User *)
  w_history : list ActionHistory;         (* the ActionHistory table *)
  w_precalc : list PrecalcCategoricalDistribution;
  w_tweetwords : list TweetWord;
  w_trace : list event
}.

(** State over [World], with exceptions; what was written before an
    exception stays written. *)
Definition M (A : Type) : Type := World -> Res A * World.

#[global] Instance M_ret : MRet M := fun _ a w => (Ok a, w).
#[global] Instance M_bind : MBind M := fun _ _ k m w =>
  match m w with
  | (Ok a, w') => k a w'
  | (Raise e, w') => (Raise e, w')
  end.

Definition lift {A} (r : Res A) : M A := fun w => (r, w).

(** The world after some more events. *)
Definition log (evs : list event) (w : World) : World :=
  mkWorld (w_users w) (w_history w) (w_precalc w) (w_tweetwords w) (w_trace w ++ evs).

Definition emit (e : event) : M unit := fun w => (Ok tt, log [e] w).

Definition get_world : M World := fun w => (Ok w, w).

(** [history.save()] *)
Definition saved (h : ActionHistory) (w : World) : World :=
  mkWorld (w_users w) (w_history w ++ [h]) (w_precalc w) (w_tweetwords w)
          (w_trace w ++ [EvHistorySave h]).

Definition save_history (h : ActionHistory) : M unit := fun w => (Ok tt, saved h w).

(** [User.objects.filter(id=i).count()] *)
Definition count_users (i : Z) (w : World) : nat :=
  List.length (List.filter (Z.eqb i) (w_users w)).

(** [User.objects.get(id=i)] *)
Definition get_user (i : Z) : M Z := fun w =>
  match count_users i w with
  | O => (Raise DoesNotExist, w)
  | _ => (Ok i, w)
  end.

(** [Response(data, status=...)]; [Response(status=...)] has no body. *)
Record Response := mkResponse {
  resp_status : Z;
  resp_body : option (gmap string pyval)
}.

Definition HTTP_200_OK : Z := 200.
Definition HTTP_400_BAD_REQUEST : Z := 400.

Record Request := mkRequest {
  req_user : RequestUser;
  req_data : gmap string pyval
}.

(** Outcome of [serializer.is_valid()]: the validated data or the errors. *)
Inductive Validation :=
| Valid (validated_data : gmap string pyval)
| Invalid (errors : gmap string pyval).

Definition is_None (v : pyval) : bool :=
  match v with PyNone => true | _ => false end.

(** ** Pure parts of [DataTableView.post] *)

(** [groups = data.get('groups', [])], then [None] when it is empty. *)
Definition read_groups (data : gmap string pyval) : Res pyval :=
  let groups := dict_get data "groups" (PyList []) in
  n ← py_len groups;
  mret (if (n =? 0)%nat then PyNone else groups).

(** [page_size = 100], overwritten when [data.get('page_size')] is true. *)
Definition read_page_size (data : gmap string pyval) : Res Z :=
  if truthy (dict_get_none data "page_size")
  then n ← py_int (dict_get_none data "page_size"); mret (Z.max 1 n)
  else mret 100.

(** [page = None], overwritten when [data.get('page')] is true. *)
Definition read_page (data : gmap string pyval) : Res (option Z) :=
  if truthy (dict_get_none data "page")
  then n ← py_int (dict_get_none data "page"); mret (Some (Z.max 1 n))
  else mret None.

(** The condition of the [if] that picks the precomputed distribution. *)
Definition fast_path_eligible (filters exclude dimensions : pyval) : Res bool :=
  py_and (Ok (is_ListType filters))
  (py_and (n ← py_len filters; mret (n =? 0)%nat)
  (py_and (Ok (is_ListType exclude))
  (py_and (n ← py_len exclude; mret (n =? 0)%nat)
  (py_and (n ← py_len dimensions; mret (n =? 1)%nat)
          (d ← py_index0 dimensions; call_is_categorical d))))).

(** ** Pure parts of [KeywordView.get] *)

Definition lower_ascii (c : ascii) : ascii :=
  let n := nat_of_ascii c in
  if ((65 <=? n) && (n <=? 90))%nat then ascii_of_nat (n + 32) else c.

Fixpoint lower (s : string) : string :=
  match s with
  | EmptyString => EmptyString
  | String c r => String (lower_ascii c) (lower r)
  end.

(** The lookup [level__istartswith=keyword]: [keyword] is a prefix of
    [level] when letter case is ignored. *)
Definition istartswith (level keyword : string) : bool :=
  String.prefix (lower keyword) (lower level).

(** [s.split(sep)] for a one-character separator: every occurrence of
    [sep] ends a piece, so the result is never empty. *)
Fixpoint py_split (sep : ascii) (s : string) : list string :=
  match s with
  | EmptyString => [EmptyString]
  | String c r =>
      if Ascii.eqb c sep then EmptyString :: py_split sep r
      else match py_split sep r with
           | piece :: pieces => String c piece :: pieces
           | [] => [String c EmptyString]
           end
  end.

(** [" ".join(pieces)] *)
Definition py_join (sep : string) (pieces : list string) : string :=
  String.concat sep pieces.

(** The rows selected by
    [filter(dataset_id=..., dimension_key="words", level__istartswith=keyword)]. *)
Definition keyword_row (dataset_id : Z) (keyword : string)
           (r : PrecalcCategoricalDistribution) : bool :=
  (pcd_dataset_id r =? dataset_id)%Z
  && String.eqb (pcd_dimension_key r) "words"
  && istartswith (pcd_level r) keyword.

(** What the database promises for [order_by('-count')]: the same rows,
    counts never increasing.  Rows of equal count come in an order the
    query does not fix. *)
Definition count_desc (a b : PrecalcCategoricalDistribution) : Prop :=
  (pcd_count b <= pcd_count a)%Z.

Definition orders_by_count_desc
           (order : list PrecalcCategoricalDistribution -> list PrecalcCategoricalDistribution)
  : Prop :=
  forall rows, Permutation rows (order rows) /\ StronglySorted count_desc (order rows).

(** [{"text": ...}] around each entry of [output.data['keywords']]. *)
Definition wrap_texts (output : gmap string pyval) : Res (gmap string pyval) :=
  keywords ← getitem output "keywords";
  match keywords with
  | PyList xs => Ok (<["keywords" := PyList ((fun x => PyDict [("text", x)]) <$> xs)]> output)
  | _ => Raise TypeError
  end.

(** ** Collaborators that live outside [views.py] *)

Class Collaborators := {
  (** [json.dumps] *)
  json_dumps : gmap string pyval -> string;
  (** [serializers.DataTableSerializer]: validation of the request body,
      and the [.data] of the serializer built on the response. *)
  is_valid : gmap string pyval -> Validation;
  serializer_data : gmap string pyval -> Res (gmap string pyval);
  (** [Dataset.get_precalc_distribution(dimension, search_key, page,
      page_size, mode)] *)
  get_precalc_distribution :
    Dataset -> pyval -> pyval -> option Z -> Z -> pyval -> Res pyval;
  (** [datatable_models.DataTable]: constructor, [set_mode], [generate]. *)
  DataTable : Type;
  DataTable_init : list pyval -> Res DataTable;
  set_mode : DataTable -> pyval -> Res DataTable;
  generate :
    DataTable -> pyval -> pyval -> pyval -> Z -> option Z -> pyval -> pyval -> Res pyval;
  (** [serializers.KeywordListSerializer(...).data] *)
  keyword_serializer_data : gmap string pyval -> Res (gmap string pyval);
  (** The database's [ORDER BY count DESC]. *)
  order_by_count_desc :
    list PrecalcCategoricalDistribution -> list PrecalcCategoricalDistribution
}.

Section Views.

Context `{Collaborators}.

(** *** [add_history] *)

Definition add_history (user : RequestUser) (type : string)
           (contents : gmap string pyval) : M unit :=
  let history := mkActionHistory type (json_dumps contents) true None in
  w ← get_world;
  history ←
    match user_id user with
    | Some uid =>
        if negb (count_users 1 w =? 0)%nat
        then owner ← get_user uid;
             mret (mkActionHistory (ah_type history) (ah_contents history)
                                   (ah_from_server history) (Some owner))
        else mret history
    | None => mret history
    end;
  save_history history.

(** *** [DataTableView.post] *)

Definition precalc_path (dataset dimensions search_key : pyval)
           (page : option Z) (page_size : Z) (mode : pyval) : M pyval :=
  match dataset with
  | PyDataset ds =>
      dimension ← lift (py_index0 dimensions);
      emit (EvPrecalc ds dimension search_key page page_size mode);;
      lift (get_precalc_distribution ds dimension search_key page page_size mode)
  | _ => lift (Raise AttributeError)
  end.

Definition general_path (dataset dimensions filters exclude : pyval)
           (page_size : Z) (page : option Z) (search_key groups mode : pyval)
  : M pyval :=
  args ← lift (star_args dimensions);
  emit (EvDataTable args);;
  datatable ← lift (DataTable_init args);
  datatable ←
    (if negb (is_None mode)
     then emit (EvSetMode mode);; lift (set_mode datatable mode)
     else mret datatable);
  emit (EvGenerate dataset filters exclude page_size page search_key groups);;
  lift (generate datatable dataset filters exclude page_size page search_key groups).

(** The lines of [post] from [dataset = data['dataset']] to the [result]
    of the chosen branch. *)
Definition post_result (data : gmap string pyval) : M pyval :=
  dataset ← lift (getitem data "dataset");
  dimensions ← lift (getitem data "dimensions");
  let filters := dict_get data "filters" (PyList []) in
  let exclude := dict_get data "exclude" (PyList []) in
  let search_key := dict_get_none data "search_key" in
  let mode := dict_get_none data "mode" in
  groups ← lift (read_groups data);
  page_size ← lift (read_page_size data);
  page ← lift (read_page data);
  fast ← lift (fast_path_eligible filters exclude dimensions);
  if fast : bool
  then precalc_path dataset dimensions search_key page page_size mode
  else general_path dataset dimensions filters exclude page_size page
                    search_key groups mode.

Definition post_valid (data : gmap string pyval) : M Response :=
  result ← post_result data;
  let response_data := <["result" := result]> data in
  emit (EvSerialize response_data);;
  output ← lift (serializer_data response_data);
  mret (mkResponse HTTP_200_OK (Some output)).

Definition post (request : Request) : M Response :=
  add_history (req_user request) "data-table" (req_data request);;
  emit (EvIsValid (req_data request));;
  match is_valid (req_data request) with
  | Valid data => post_valid data
  | Invalid errors => mret (mkResponse HTTP_400_BAD_REQUEST (Some errors))
  end.

(** *** [KeywordView.get] *)

(** The queryset [keywords] of the branch with a [q]. *)
Definition keyword_query (w : World) (dataset_id : Z) (keyword : string)
  : list PrecalcCategoricalDistribution :=
  order_by_count_desc (List.filter (keyword_row dataset_id keyword) (w_precalc w)).

(** [response_data["keywords"]] of the branch with a [q]. *)
Definition complete_keywords (w : World) (dataset_id : Z) (q : string) : list string :=
  let strings := py_split " " q in
  let prefix := py_join " " (removelast strings) ++ " " in
  let keyword := List.last strings EmptyString in
  let keywords := keyword_query w dataset_id keyword in
  (fun x => prefix ++ pcd_level x) <$> take 20 keywords.

(** [TweetWord.objects.filter(dataset_id=...).values('text').distinct()[:20]];
    the query fixes no order, the table's own is used. *)
Definition tweetword_texts (w : World) (dataset_id : Z) : list string :=
  take 20 (remove_dups
             (tw_text <$> List.filter (fun t => (tw_dataset_id t =? dataset_id)%Z)
                                      (w_tweetwords w))).

Definition get (user : RequestUser) (query_params : gmap string string) : M Response :=
  add_history user "auto-complete:get-list" (PyStr <$> query_params);;
  if truthy (default PyNone (PyStr <$> query_params !! "dataset")) then
    let dataset_id := default EmptyString (query_params !! "dataset") in
    let response_data : gmap string pyval := {[ "dataset" := PyStr dataset_id ]} in
    match query_params !! "q" with
    | None =>
        pk ← lift (int_of_str dataset_id);
        w ← get_world;
        let keywords :=
          PyList ((fun t => PyDict [("text", PyStr t)]) <$> tweetword_texts w pk) in
        output ← lift (keyword_serializer_data (<["keywords" := keywords]> response_data));
        mret (mkResponse HTTP_200_OK (Some output))
    | Some q =>
        let response_data := <["q" := PyStr q]> response_data in
        pk ← lift (int_of_str dataset_id);
        w ← get_world;
        let keywords := PyList (PyStr <$> complete_keywords w pk q) in
        output ← lift (keyword_serializer_data (<["keywords" := keywords]> response_data));
        output ← lift (wrap_texts output);
        mret (mkResponse HTTP_200_OK (Some output))
    end
  else mret (mkResponse HTTP_400_BAD_REQUEST None).

End Views.

(** ** The planner's decision *)

(** The two ways [post] can compute a result. *)
Inductive Path := FastPath | GeneralPath.

(** Which branch [post_result] enters and calls its collaborator in:
    the same reads and the same [if], without the calls. *)
Definition plan (data : gmap string pyval) : Res Path :=
  dataset ← getitem data "dataset";
  dimensions ← getitem data "dimensions";
  let filters := dict_get data "filters" (PyList []) in
  let exclude := dict_get data "exclude" (PyList []) in
  _ ← read_groups data;
  _ ← read_page_size data;
  _ ← read_page data;
  fast ← fast_path_eligible filters exclude dimensions;
  if fast : bool
  then match dataset with
       | PyDataset _ => Ok FastPath
       | _ => Raise AttributeError
       end
  else _ ← star_args dimensions; Ok GeneralPath.

(** What the [if] of [post] asks of the validated data. *)
Definition fast_path_conditions (data : gmap string pyval) : Prop :=
  dict_get data "filters" (PyList []) = PyList [] /\
  dict_get data "exclude" (PyList []) = PyList [] /\
  exists d, data !! "dimensions" = Some (PyList [PyDimension d]) /\
            is_categorical d = true.

(** Grouping is absent: [groups] ends up [None]. *)
Definition grouping_absent (data : gmap string pyval) : Prop :=
  read_groups data = Ok PyNone.

(** The eligibility rule in the words of the specification: the
    conditions of the [if], and no grouping. *)
Definition spec_fast_path_conditions (data : gmap string pyval) : Prop :=
  fast_path_conditions data /\ grouping_absent data.

(** Validated data of the types the view counts on: a [Dataset], a list
    of [Dimension]s, and [groups], [page_size] and [page] that the reads
    accept. *)
Definition typed_data (data : gmap string pyval) : Prop :=
  (exists ds, data !! "dataset" = Some (PyDataset ds)) /\
  (exists dims, data !! "dimensions" = Some (PyList (PyDimension <$> dims))) /\
  (exists g, read_groups data = Ok g) /\
  (exists n, read_page_size data = Ok n) /\
  (exists p, read_page data = Ok p).



(** ** Observations on a run *)

(** The events a run added to the trace. *)
Definition events_since (w w' : World) : list event :=
  drop (List.length (w_trace w)) (w_trace w').

Definition path_of_event (e : event) : option Path :=
  match e with
  | EvPrecalc _ _ _ _ _ _ => Some FastPath
  | EvDataTable _ | EvSetMode _ | EvGenerate _ _ _ _ _ _ _ => Some GeneralPath
  | _ => None
  end.

Definition took (p : Path) (evs : list event) : bool :=
  existsb (fun e => match path_of_event e, p with
                    | Some FastPath, FastPath | Some GeneralPath, GeneralPath => true
                    | _, _ => false
                    end) evs.

(** [plan] as a test: does the planner pick path [p]? *)
Definition planned (p : Path) (data : gmap string pyval) : bool :=
  match plan data, p with
  | Ok FastPath, FastPath | Ok GeneralPath, GeneralPath => true
  | _, _ => false
  end.

(** [request.user] is the anonymous user or a row of the user table,
    which is how the authentication layer builds it. *)
Definition user_known (w : World) (u : RequestUser) : Prop :=
  match user_id u with
  | Some uid => count_users uid w <> 0%nat
  | None => True
  end.

(** The one way [add_history] fails: user 1 exists, so the owner is
    looked up, and the acting user has no row. *)
Definition owner_missing (w : World) (u : RequestUser) : bool :=
  match user_id u with
  | Some uid => negb (count_users 1 w =? 0)%nat && (count_users uid w =? 0)%nat
  | None => false
  end.

(** The row [add_history] writes. *)
Definition history_row `{Collaborators} (w : World) (u : RequestUser) (type : string)
           (contents : gmap string pyval) : ActionHistory :=
  mkActionHistory type (json_dumps contents) true
    (match user_id u with
     | Some uid => if (count_users 1 w =? 0)%nat then None else Some uid
     | None => None
     end).

(** The [page_size] and [page] a call to the store or to [generate] carries. *)
Definition paging_of_call (e : event) : option (Z * option Z) :=
  match e with
  | EvPrecalc _ _ _ page page_size _ => Some (page_size, page)
  | EvGenerate _ _ _ page_size page _ _ => Some (page_size, page)
  | _ => None
  end.


(** ** Outcomes of the two branches *)

(** What the general branch does once [*dimensions] is unpacked: the
    result it hands back and the calls after [DataTable(...)].  [call]
    is the call to [generate], [gen] its answer on a given table. *)
Inductive engine_run `{Collaborators} (args : list pyval) (mode : pyval)
          (call : event) (gen : DataTable -> Res pyval)
  : Res pyval -> list event -> Prop :=
| engine_init_raised e :
    DataTable_init args = Raise e ->
    engine_run args mode call gen (Raise e) []
| engine_default_mode dt :
    DataTable_init args = Ok dt -> mode = PyNone ->
    engine_run args mode call gen (gen dt) [call]
| engine_mode_raised dt e :
    DataTable_init args = Ok dt -> mode <> PyNone ->
    set_mode dt mode = Raise e ->
    engine_run args mode call gen (Raise e) [EvSetMode mode]
| engine_mode_set dt dt' :
    DataTable_init args = Ok dt -> mode <> PyNone ->
    set_mode dt mode = Ok dt' ->
    engine_run args mode call gen (gen dt') [EvSetMode mode; call].

(** The possible runs of [post_result]: its result and the calls it made. *)
Inductive result_run `{Collaborators} (data : gmap string pyval)
  : Res pyval -> list event -> Prop :=
| run_raised e :
    plan data = Raise e ->
    result_run data (Raise e) []
| run_precalc ds d page_size page :
    plan data = Ok FastPath ->
    data !! "dataset" = Some (PyDataset ds) ->
    data !! "dimensions" = Some (PyList [PyDimension d]) ->
    read_page_size data = Ok page_size ->
    read_page data = Ok page ->
    result_run data
      (get_precalc_distribution ds (PyDimension d) (dict_get_none data "search_key")
                                page page_size (dict_get_none data "mode"))
      [EvPrecalc ds (PyDimension d) (dict_get_none data "search_key")
                 page page_size (dict_get_none data "mode")]
| run_general dataset dimensions args groups page_size page r tail :
    plan data = Ok GeneralPath ->
    data !! "dataset" = Some dataset ->
    data !! "dimensions" = Some dimensions ->
    star_args dimensions = Ok args ->
    read_groups data = Ok groups ->
    read_page_size data = Ok page_size ->
    read_page data = Ok page ->
    engine_run args (dict_get_none data "mode")
      (EvGenerate dataset (dict_get data "filters" (PyList []))
                  (dict_get data "exclude" (PyList [])) page_size page
                  (dict_get_none data "search_key") groups)
      (fun dt => generate dt dataset (dict_get data "filters" (PyList []))
                          (dict_get data "exclude" (PyList [])) page_size page
                          (dict_get_none data "search_key") groups)
      r tail ->
    result_run data r (EvDataTable args :: tail).

(** ** A test double for the collaborators *)

Fixpoint insert_by_count (r : PrecalcCategoricalDistribution)
         (rows : list PrecalcCategoricalDistribution) : list PrecalcCategoricalDistribution :=
  match rows with
  | [] => [r]
  | x :: rest =>
      if (pcd_count r <? pcd_count x)%Z then x :: insert_by_count r rest
      else r :: rows
  end.

(** A stable sort on decreasing counts: rows of equal count keep the
    order of the table. *)
Definition stable_count_desc (rows : list PrecalcCategoricalDistribution)
  : list PrecalcCategoricalDistribution :=
  List.fold_right insert_by_count [] rows.

Definition opt_int (o : option Z) : pyval :=
  match o with Some n => PyInt n | None => PyNone end.

(** A serializer that wants [dataset] and [dimensions], a distribution
    store and a table engine that answer with the arguments they got. *)
Definition echo : Collaborators := {|
  json_dumps d := String.concat "," (fst <$> map_to_list d);
  is_valid raw :=
    match raw !! "dataset", raw !! "dimensions" with
    | Some _, Some _ => Valid raw
    | _, _ => Invalid {[ "detail" := PyStr "This field is required." ]}
    end;
  serializer_data d := Ok d;
  get_precalc_distribution ds dimension search_key page page_size mode :=
    Ok (PyList [PyStr "precalc"; PyDataset ds; dimension; search_key;
                opt_int page; PyInt page_size; mode]);
  DataTable := (list pyval * pyval)%type;
  DataTable_init dims := Ok (dims, PyNone);
  set_mode dt mode := Ok (fst dt, mode);
  generate dt dataset filters exclude page_size page search_key groups :=
    Ok (PyList [PyStr "generate"; PyList (fst dt); snd dt; dataset; filters; exclude;
                PyInt page_size; opt_int page; search_key; groups]);
  keyword_serializer_data d := Ok d;
  order_by_count_desc := stable_count_desc
|}.

Definition hashtags : Dimension := mkDimension "hashtags" Categorical.
Definition time : Dimension := mkDimension "time" Temporal.

Definition empty_world : World := mkWorld [] [] [] [] [].
Definition anonymous : RequestUser := mkRequestUser None.

(** [{"dataset": 1, "dimensions": ["hashtags"]}] after validation. *)
Definition hashtags_request : gmap string pyval :=
  {[ "dataset" := PyDataset (mkDataset 1);
     "dimensions" := PyList [PyDimension hashtags] ]}.

(** Does [c] occur in [s]? *)
Definition contains_char (c : ascii) (s : string) : bool :=
  existsb (Ascii.eqb c) (list_ascii_of_string s).


Definition banana : PrecalcCategoricalDistribution := mkPrecalc 1 "words" "banana" 3.
Definition apple : PrecalcCategoricalDistribution := mkPrecalc 1 "words" "apple" 3.

(** A distribution table with two words of equal count, [banana] stored
    first, next to rows of another dimension and of another dataset. *)
Definition words_world : World :=
  mkWorld [] []
          [banana; apple; mkPrecalc 1 "words" "Mudslide" 9;
           mkPrecalc 2 "words" "mud" 50; mkPrecalc 1 "hashtags" "mud" 70]
          [] [].






(** * The other views *)

(** ** More builtins *)

(** [a or b] *)
Definition py_or (a b : pyval) : pyval := if truthy a then a else b.

Definition number_of (v : pyval) : option Z :=
  match v with
  | PyInt n => Some n
  | PyBool b => Some (if b then 1 else 0)
  | _ => None
  end.

(** [a + b]: lists and strings are concatenated, numbers added. *)
Definition py_add (a b : pyval) : Res pyval :=
  match a, b with
  | PyList xs, PyList ys => Ok (PyList (xs ++ ys))
  | PyStr s, PyStr t => Ok (PyStr (s ++ t))
  | _, _ =>
      match number_of a, number_of b with
      | Some m, Some n => Ok (PyInt (m + n))
      | _, _ => Raise TypeError
      end
  end.

(** The items a [for] or a comprehension runs over. *)
Definition py_iter (v : pyval) : Res (list pyval) := star_args v.

(** A list comprehension [[f(x) for x in xs]]: the calls are made in
    order and the first exception ends it. *)
Fixpoint comprehension {A B} (f : A -> Res B) (xs : list A) : Res (list B) :=
  match xs with
  | [] => Ok []
  | x :: rest => y ← f x; ys ← comprehension f rest; Ok (y :: ys)
  end.

(** How often [c] occurs in [s]. *)
Fixpoint count_char (c : ascii) (s : string) : nat :=
  match s with
  | EmptyString => 0%nat
  | String x r => ((if Ascii.eqb x c then 1 else 0) + count_char c r)%nat
  end.

Definition HTTP_204_NO_CONTENT : Z := 204.

(** A response whose body is any value: a string, a serialized list, or
    [None] for [Response(status=...)]. *)
Record PlainResponse := mkPlainResponse {
  plain_status : Z;
  plain_body : pyval
}.

(** ** Groups *)

(** A row of [groups_models.Group], with the columns [GroupView.get] and
    [GroupView.delete] name; [order] and [owner] are the fields the
    migration [0006_auto_20150908_2327] adds, [order] an integer and
    [owner] a nullable reference to a user. *)
Record Group := mkGroup {
  group_id : Z;
  group_dataset_id : Z;
  group_deleted : bool;
  group_owner : option Z;
  group_order : Z;
  group_created_at : Z
}.

(** The world of the group views: the world of [add_history] and the
    table of groups. *)
Record GroupWorld := mkGroupWorld {
  gw_world : World;
  gw_groups : list Group
}.

Definition MG (A : Type) : Type := GroupWorld -> Res A * GroupWorld.

#[global] Instance MG_ret : MRet MG := fun _ a gw => (Ok a, gw).
#[global] Instance MG_bind : MBind MG := fun _ _ k m gw =>
  match m gw with
  | (Ok a, gw') => k a gw'
  | (Raise e, gw') => (Raise e, gw')
  end.

Definition lift_res {A} (r : Res A) : MG A := fun gw => (r, gw).

(** A computation on the world of [add_history], run in the larger one. *)
Definition lift_world {A} (m : M A) : MG A := fun gw =>
  let '(r, w') := m (gw_world gw) in (r, mkGroupWorld w' (gw_groups gw)).

Definition get_group_world : MG GroupWorld := fun gw => (Ok gw, gw).

(** [Group.objects.get(id=pk)] *)
Definition group_objects_get (pk : Z) : MG Group := fun gw =>
  match List.filter (fun g => (group_id g =? pk)%Z) (gw_groups gw) with
  | [] => (Raise DoesNotExist, gw)
  | [g] => (Ok g, gw)
  | _ => (Raise (CollaboratorError "MultipleObjectsReturned"), gw)
  end.

(** [group.save()] of a row that exists: the row of that id is rewritten. *)
Definition group_save (g : Group) : MG unit := fun gw =>
  (Ok tt,
   mkGroupWorld (gw_world gw)
     ((fun row => if (group_id row =? group_id g)%Z then g else row) <$> gw_groups gw)).

Definition mark_deleted (g : Group) : Group :=
  mkGroup (group_id g) (group_dataset_id g) true (group_owner g)
          (group_order g) (group_created_at g).

(** What the database promises for [order_by('order', 'created_at')]. *)
Definition group_before (a b : Group) : Prop :=
  (group_order a < group_order b)%Z \/
  (group_order a = group_order b /\ (group_created_at a <= group_created_at b)%Z).

Definition orders_groups (order : list Group -> list Group) : Prop :=
  forall rows, Permutation rows (order rows) /\ StronglySorted group_before (order rows).

(** ** Datasets *)

(** [Dataset.objects.get(id=pk)] on the table of datasets. *)
Definition dataset_objects_get (datasets : list Dataset) (pk : Z) : Res Dataset :=
  match List.filter (fun d => (dataset_pk d =? pk)%Z) datasets with
  | [] => Raise DoesNotExist
  | [d] => Ok d
  | _ => Raise (CollaboratorError "MultipleObjectsReturned")
  end.

(** ** Collaborators of the other views *)

Class MessageCollaborators := {
  (** [serializers.ExampleMessageSerializer] *)
  example_is_valid : gmap string pyval -> Validation;
  example_serializer_data : Request -> gmap string pyval -> Res (gmap string pyval);
  (** [Dataset.get_example_messages(filters, excludes)] and
      [Dataset.get_example_messages_by_groups(groups, filters, excludes)] *)
  get_example_messages : Dataset -> pyval -> pyval -> Res pyval;
  get_example_messages_by_groups : Dataset -> pyval -> pyval -> pyval -> Res pyval;
  (** [serializers.KeywordMessageSerializer] *)
  search_is_valid : gmap string pyval -> Validation;
  search_serializer_data : Request -> gmap string pyval -> Res (gmap string pyval);
  (** [corpus_models.MessageType.objects.get(name=x)] *)
  message_type_get : pyval -> Res pyval;
  (** [Dataset.get_advanced_search_results(keywords, include_types)] *)
  get_advanced_search_results : Dataset -> pyval -> list pyval -> Res pyval;
  (** [serializers.DatasetSerializer(dataset).data] *)
  dataset_serializer_data : Dataset -> Res pyval;
  (** [serializers.GroupSerializer]: [.data] for a list of groups
      ([many=True]) and for one group shown with its messages. *)
  group_list_data : list Group -> Res pyval;
  group_data : Request -> Group -> Res pyval;
  (** The database's [ORDER BY order, created_at]. *)
  order_groups : list Group -> list Group
}.

Module ExampleMessagesView.
Section View.

Context `{Collaborators} `{MessageCollaborators}.

(** The lines of [post] that fetch [example_messages]. *)
Definition example_messages (data : gmap string pyval) : Res pyval :=
  dataset ← getitem data "dataset";
  let filters := dict_get data "filters" (PyList []) in
  let excludes := dict_get data "excludes" (PyList []) in
  let focus := dict_get data "focus" (PyList []) in
  let groups := dict_get_none data "groups" in
  match dataset with
  | PyDataset ds =>
      if is_None groups
      then both ← py_add filters focus;
           get_example_messages ds both excludes
      else both ← py_add filters focus;
           get_example_messages_by_groups ds groups both excludes
  | _ => Raise AttributeError
  end.

Definition post (request : Request) : M Response :=
  add_history (req_user request) "example-messages" (req_data request);;
  match example_is_valid (req_data request) with
  | Valid data =>
      messages ← lift (example_messages data);
      let response_data := <["messages" := messages]> data in
      output ← lift (example_serializer_data request response_data);
      mret (mkResponse HTTP_200_OK (Some output))
  | Invalid errors => mret (mkResponse HTTP_400_BAD_REQUEST (Some errors))
  end.

End View.
End ExampleMessagesView.

Module KeywordMessagesView.
Section View.

Context `{Collaborators} `{MessageCollaborators}.

(** [include_types]: empty, or one [MessageType] per entry of [types_list]. *)
Definition include_types (types_list : pyval) : Res (list pyval) :=
  n ← py_len types_list;
  if (0 <? n)%nat
  then names ← py_iter types_list; comprehension message_type_get names
  else Ok [].

(** The lines of [post] that fetch [messages]. *)
Definition messages (data : gmap string pyval) : Res pyval :=
  dataset ← getitem data "dataset";
  let keywords := py_or (dict_get_none data "keywords") (PyStr "") in
  let types_list := py_or (dict_get_none data "types_list") (PyList []) in
  types ← include_types types_list;
  match dataset with
  | PyDataset ds => get_advanced_search_results ds keywords types
  | _ => Raise AttributeError
  end.

Definition post (request : Request) : M Response :=
  add_history (req_user request) "search" (req_data request);;
  match search_is_valid (req_data request) with
  | Valid data =>
      found ← lift (messages data);
      let response_data := <["messages" := found]> data in
      output ← lift (search_serializer_data request response_data);
      mret (mkResponse HTTP_200_OK (Some output))
  | Invalid errors => mret (mkResponse HTTP_400_BAD_REQUEST (Some errors))
  end.

End View.
End KeywordMessagesView.

Module DatasetView.
Section View.

Context `{MessageCollaborators}.

(** The body of the [try]. *)
Definition found (datasets : list Dataset) (dataset_id : Z) : Res PlainResponse :=
  dataset ← dataset_objects_get datasets dataset_id;
  output ← dataset_serializer_data dataset;
  Ok (mkPlainResponse HTTP_200_OK output).

Definition get (datasets : list Dataset) (query_params : gmap string string)
  : Res PlainResponse :=
  if truthy (default PyNone (PyStr <$> query_params !! "id"))
  then dataset_id ← int_of_str (default EmptyString (query_params !! "id"));
       match found datasets dataset_id with
       | Ok response => Ok response
       | Raise _ => Ok (mkPlainResponse HTTP_400_BAD_REQUEST (PyStr "Dataset not exist"))
       end
  else Ok (mkPlainResponse HTTP_400_BAD_REQUEST (PyStr "Please specify dataset id")).

End View.
End DatasetView.

Module GroupView.
Section View.

Context `{Collaborators} `{MessageCollaborators}.

(** The groups [get] lists for a dataset: not deleted, the acting
    user's own when an owner is looked up, in the order asked for. *)
Definition listed (w : World) (user : RequestUser) (dataset_id : Z)
           (groups : list Group) : Res (list Group) :=
  let groups :=
    List.filter (fun g => (group_dataset_id g =? dataset_id)%Z && negb (group_deleted g))
                groups in
  groups ←
    match user_id user with
    | Some uid =>
        if negb (count_users 1 w =? 0)%nat
        then match count_users uid w with
             | O => Raise DoesNotExist
             | _ => Ok (List.filter
                          (fun g => match group_owner g with
                                    | Some o => (o =? uid)%Z
                                    | None => false
                                    end) groups)
             end
        else Ok groups
    | None => Ok groups
    end;
  Ok (order_groups groups).

Definition get (request : Request) (query_params : gmap string string)
  : MG PlainResponse :=
  if truthy (default PyNone (PyStr <$> query_params !! "dataset")) then
    lift_world (add_history (req_user request) "group:get-list" (PyStr <$> query_params));;
    dataset_id ← lift_res (int_of_str (default EmptyString (query_params !! "dataset")));
    gw ← get_group_world;
    groups ← lift_res (listed (gw_world gw) (req_user request) dataset_id (gw_groups gw));
    output ← lift_res (group_list_data groups);
    mret (mkPlainResponse HTTP_200_OK output)
  else if truthy (default PyNone (PyStr <$> query_params !! "group_id")) then
    lift_world (add_history (req_user request) "group:get-single-group" (req_data request));;
    pk ← lift_res (int_of_str (default EmptyString (query_params !! "group_id")));
    group ← group_objects_get pk;
    output ← lift_res (group_data request group);
    mret (mkPlainResponse HTTP_200_OK output)
  else
    lift_world (add_history (req_user request) "group:get-all-groups" (req_data request));;
    gw ← get_group_world;
    output ← lift_res (group_list_data (gw_groups gw));
    mret (mkPlainResponse HTTP_200_OK output).

(** [delete] answers 204, or falls off its end and returns [None]. *)
Definition delete (request : Request) (query_params : gmap string string)
  : MG (option PlainResponse) :=
  lift_world (add_history (req_user request) "group:delete" (PyStr <$> query_params));;
  if truthy (default PyNone (PyStr <$> query_params !! "id")) then
    pk ← lift_res (int_of_str (default EmptyString (query_params !! "id")));
    group ← group_objects_get pk;
    group_save (mark_deleted group);;
    mret (Some (mkPlainResponse HTTP_204_NO_CONTENT PyNone))
  else mret None.

End View.
End GroupView.

(** A test double for these collaborators: serializers that accept a
    body with a [dataset] and hand data through, lookups that answer
    with their arguments, two message types, groups sorted by a stable
    insertion. *)
Fixpoint insert_group (g : Group) (rows : list Group) : list Group :=
  match rows with
  | [] => [g]
  | x :: rest =>
      if (group_order x <? group_order g)%Z
         || ((group_order x =? group_order g)%Z
             && (group_created_at x <? group_created_at g)%Z)
      then x :: insert_group g rest
      else g :: rows
  end.

Definition sort_groups (rows : list Group) : list Group :=
  List.fold_right insert_group [] rows.

Definition echo_messages : MessageCollaborators := {|
  example_is_valid raw :=
    match raw !! "dataset" with
    | Some _ => Valid raw
    | None => Invalid {[ "dataset" := PyStr "This field is required." ]}
    end;
  example_serializer_data _ d := Ok d;
  get_example_messages ds filters excludes :=
    Ok (PyList [PyStr "messages"; filters; excludes]);
  get_example_messages_by_groups ds groups filters excludes :=
    Ok (PyList [PyStr "by groups"; groups; filters; excludes]);
  search_is_valid raw :=
    match raw !! "dataset" with
    | Some _ => Valid raw
    | None => Invalid {[ "dataset" := PyStr "This field is required." ]}
    end;
  search_serializer_data _ d := Ok d;
  message_type_get x :=
    match x with
    | PyStr "tweet" => Ok (PyInt 1)
    | PyStr "retweet" => Ok (PyInt 2)
    | _ => Raise DoesNotExist
    end;
  get_advanced_search_results ds keywords types :=
    Ok (PyList [PyStr "found"; keywords; PyList types]);
  dataset_serializer_data ds := Ok (PyDict [("id", PyInt (dataset_pk ds))]);
  group_list_data groups := Ok (PyList ((fun g => PyInt (group_id g)) <$> groups));
  group_data _ g := Ok (PyInt (group_id g));
  order_groups := sort_groups
|}.

(** Three groups of dataset 1 and one of dataset 2, owned by nobody. *)
Definition groups_world : GroupWorld :=
  mkGroupWorld empty_world
    [mkGroup 10 1 false None 2 100; mkGroup 11 1 false None 1 200;
     mkGroup 12 2 false None 0 300; mkGroup 13 1 true None 0 50].

(** The test double with a serializer that lets every body through. *)
Definition lenient : Collaborators := {|
  json_dumps := @json_dumps echo;
  is_valid raw := Valid raw;
  serializer_data := @serializer_data echo;
  get_precalc_distribution := @get_precalc_distribution echo;
  DataTable := @DataTable echo;
  DataTable_init := @DataTable_init echo;
  set_mode := @set_mode echo;
  generate := @generate echo;
  keyword_serializer_data := @keyword_serializer_data echo;
  order_by_count_desc := @order_by_count_desc echo
|}.

(** [{"dataset": 1, "dimensions": ["time"], "mode": "cumulative"}]
    after validation. *)
Definition time_request : gmap string pyval :=
  {[ "dataset" := PyDataset (mkDataset 1);
     "dimensions" := PyList [PyDimension time];
     "mode" := PyStr "cumulative" ]}.

(** * Properties *)

(** ** Reads and the eligibility test *)

Ltac unres :=
  unfold mbind, mret, Res_bind, Res_ret, res_bind in *; simpl in *.

(** [int] of a string fails with [ValueError] only. *)
Lemma int_of_str_raises s e : int_of_str s = Raise e -> e = ValueError.
Proof.
  unfold int_of_str. destruct (read_sign (skip_spaces s)) as [negative unsigned].
  destruct (read_digits 0 false (skip_spaces unsigned)) as [[n rest]|].
  - destruct (skip_spaces rest); congruence.
  - congruence.
Qed.

Lemma py_and_true a b : py_and a b = Ok true <-> a = Ok true /\ b = Ok true.
Proof.
  destruct a as [[|]|e]; simpl; intuition congruence.
Qed.

Lemma len_is_zero v : is_ListType v = true ->
  (n ← py_len v; mret (n =? 0)%nat) = Ok true <-> v = PyList [].
Proof.
  destruct v as [| | | |xs| | |]; simpl; try discriminate. intros _.
  destruct xs; unres; split; congruence.
Qed.

(** The [if] of [post] is entered exactly by an empty [filters] list, an
    empty [exclude] list and a single categorical dimension. *)
Lemma fast_path_eligible_true filters exclude dimensions :
  fast_path_eligible filters exclude dimensions = Ok true <->
  filters = PyList [] /\ exclude = PyList [] /\
  exists d, dimensions = PyList [PyDimension d] /\ is_categorical d = true.
Proof.
  unfold fast_path_eligible. rewrite !py_and_true. split.
  - intros (Hf & Hf0 & He & He0 & Hd & Hc).
    injection Hf as Hf. injection He as He.
    apply (len_is_zero _ Hf) in Hf0. apply (len_is_zero _ He) in He0.
    split; [assumption|]. split; [assumption|].
    destruct dimensions as [| | |s|xs| | |]; unres; try discriminate.
    + destruct s as [|c [|c' s]]; unres; discriminate.
    + destruct xs as [|x [|y xs]]; unres; try discriminate.
      destruct x; simpl in Hc; try discriminate.
      injection Hc as Hc. eauto.
  - intros (-> & -> & d & -> & Hc). unres. rewrite Hc. repeat split.
Qed.

(** On a list of [Dimension]s with list-typed or absent filters the test
    never raises. *)
Lemma fast_path_eligible_total filters exclude dims :
  exists b, fast_path_eligible filters exclude (PyList (PyDimension <$> dims)) = Ok b.
Proof.
  unfold fast_path_eligible.
  destruct filters as [| | | |fs| | |]; unres; eauto.
  destruct fs; unres; eauto.
  destruct exclude as [| | | |es| | |]; unres; eauto.
  destruct es; unres; eauto.
  destruct dims as [|d [|d' dims]]; unres; eauto.
Qed.



(** ** Worlds and traces *)

Lemma log_log evs evs' w : log evs' (log evs w) = log (evs ++ evs') w.
Proof. unfold log; simpl. by rewrite <- app_assoc. Qed.

Lemma log_nil w : log [] w = w.
Proof. destruct w. unfold log; simpl. by rewrite app_nil_r. Qed.

Lemma events_since_log evs w : events_since w (log evs w) = evs.
Proof. unfold events_since, log; simpl. by rewrite drop_app_length. Qed.

Lemma events_since_saved h evs w :
  events_since w (log evs (saved h w)) = EvHistorySave h :: evs.
Proof.
  unfold events_since, log, saved; simpl.
  by rewrite <- app_assoc, drop_app_length.
Qed.

Lemma took_app p evs evs' : took p (evs ++ evs') = took p evs || took p evs'.
Proof. unfold took. apply existsb_app. Qed.

Section Runs.

Context `{Collaborators}.

Ltac unM :=
  unfold mbind, mret, M_bind, M_ret, lift, emit, get_world, save_history in *;
  simpl in *.

(** ** [add_history] *)

Lemma add_history_run u type contents w :
  add_history u type contents w =
  if owner_missing w u then (Raise DoesNotExist, w)
  else (Ok tt, saved (history_row w u type contents) w).
Proof.
  unfold add_history, history_row, owner_missing, get_user. unM.
  destruct (user_id u) as [uid|]; [|done].
  destruct (count_users 1 w =? 0)%nat eqn:Hone; simpl; [done|].
  by destruct (count_users uid w) eqn:Huid.
Qed.

Lemma user_known_owner w u : user_known w u -> owner_missing w u = false.
Proof.
  unfold user_known, owner_missing. destruct (user_id u); [|done].
  intros Hu. destruct (count_users z w); [done|]. apply andb_false_r.
Qed.

(** ** The branches of [post] *)

Lemma general_path_run dataset dimensions filters exclude page_size page
      search_key groups mode args :
  star_args dimensions = Ok args ->
  exists r tail,
    engine_run args mode
      (EvGenerate dataset filters exclude page_size page search_key groups)
      (fun dt => generate dt dataset filters exclude page_size page search_key groups)
      r tail /\
    forall w, general_path dataset dimensions filters exclude page_size page
                           search_key groups mode w
              = (r, log (EvDataTable args :: tail) w).
Proof.
  intros Hargs. unfold general_path. rewrite Hargs. unM.
  destruct (DataTable_init args) as [dt|e] eqn:Hdt.
  - destruct (is_None mode) eqn:Hmode; simpl.
    + destruct mode; try discriminate.
      eexists _, _. split; [by eapply engine_default_mode|].
      intros w. by rewrite log_log.
    + assert (mode <> PyNone) by (intros ->; discriminate).
      destruct (set_mode dt mode) as [dt'|e] eqn:Hset.
      * eexists _, _. split; [by eapply engine_mode_set|].
        intros w. by rewrite !log_log.
      * eexists _, _. split; [by eapply engine_mode_raised|].
        intros w. by rewrite !log_log.
  - eexists _, _. split; [by eapply engine_init_raised|]. done.
Qed.

(** Every run of [post_result] is one of [result_run], whatever the
    world it starts in. *)
Lemma post_result_run data :
  exists r evs, result_run data r evs /\
                forall w, post_result data w = (r, log evs w).
Proof.
  assert (Hraised : forall e, plan data = Raise e ->
            exists r evs, result_run data r evs /\
                          forall w, (Raise e, w) = (r, log evs w)).
  { intros e He. exists (Raise e), []. split; [by apply run_raised|].
    intros w. by rewrite log_nil. }
  unfold post_result. unM. unfold plan in Hraised. unres.
  destruct (getitem data "dataset") as [dataset|e] eqn:Hds; simpl in *; [|eauto].
  destruct (getitem data "dimensions") as [dimensions|e] eqn:Hdims; simpl in *; [|eauto].
  destruct (read_groups data) as [groups|e] eqn:Hg; simpl in *; [|eauto].
  destruct (read_page_size data) as [page_size|e] eqn:Hps; simpl in *; [|eauto].
  destruct (read_page data) as [page|e] eqn:Hpg; simpl in *; [|eauto].
  destruct (fast_path_eligible (dict_get data "filters" (PyList []))
              (dict_get data "exclude" (PyList [])) dimensions)
    as [fast|e] eqn:Hfast; simpl in *; [|eauto].
  assert (Hplan : plan data =
                  if fast
                  then match dataset with
                       | PyDataset _ => Ok FastPath
                       | _ => Raise AttributeError
                       end
                  else _ ← star_args dimensions; Ok GeneralPath).
  { unfold plan. unres. rewrite Hds, Hdims, Hg, Hps, Hpg, Hfast. done. }
  unfold getitem in Hds, Hdims.
  destruct (data !! "dataset") as [dataset'|] eqn:Hds'; [|discriminate].
  destruct (data !! "dimensions") as [dimensions'|] eqn:Hdims'; [|discriminate].
  injection Hds as ->. injection Hdims as ->.
  destruct fast.
  - apply fast_path_eligible_true in Hfast as (_ & _ & d & -> & Hcat).
    unfold precalc_path.
    destruct dataset as [| | | | | | |ds]; unM; try (by apply Hraised).
    eexists _, _. split; [|done].
    by eapply (run_precalc data ds d page_size page).
  - destruct (star_args dimensions) as [args|e] eqn:Hargs.
    + destruct (general_path_run dataset dimensions
                  (dict_get data "filters" (PyList []))
                  (dict_get data "exclude" (PyList []))
                  page_size page (dict_get_none data "search_key") groups
                  (dict_get_none data "mode") args Hargs)
        as (r & tail & Hrun & Heq).
      exists r, (EvDataTable args :: tail). split; [|done].
      by eapply (run_general data dataset dimensions args groups page_size page).
    + unfold general_path. rewrite Hargs. unM. by apply Hraised.
Qed.

Lemma post_valid_run data r evs :
  (forall w, post_result data w = (r, log evs w)) ->
  forall w,
    post_valid data w =
    match r with
    | Ok result =>
        ((fun o => mkResponse HTTP_200_OK (Some o))
           <$> serializer_data (<["result" := result]> data),
         log (evs ++ [EvSerialize (<["result" := result]> data)]) w)
    | Raise e => (Raise e, log evs w)
    end.
Proof.
  intros Hrun w. unfold post_valid. unM. rewrite Hrun.
  destruct r as [result|e]; [|done].
  unfold fmap, Res_fmap. rewrite log_log.
  by destruct (serializer_data _).
Qed.

Lemma post_run req w :
  let w1 := log [EvIsValid (req_data req)]
                (saved (history_row w (req_user req) "data-table" (req_data req)) w) in
  post req w =
  if owner_missing w (req_user req) then (Raise DoesNotExist, w)
  else match is_valid (req_data req) with
       | Valid data => post_valid data w1
       | Invalid errors => (Ok (mkResponse HTTP_400_BAD_REQUEST (Some errors)), w1)
       end.
Proof.
  unfold post.
  pose proof (add_history_run (req_user req) "data-table" (req_data req) w) as Hadd.
  unM. rewrite Hadd. destruct (owner_missing _ _); [done|].
  by destruct (is_valid _).
Qed.

(** ** Which calls a run makes *)

Lemma engine_run_events args mode call gen r tail :
  engine_run args mode call gen r tail ->
  path_of_event call = Some GeneralPath ->
  took FastPath tail = false /\
  (forall e, e ∈ tail -> e = EvSetMode mode \/ e = call) /\
  (forall x, r = Ok x -> call ∈ tail /\ exists dt, gen dt = Ok x).
Proof.
  intros Hrun Hcall. unfold took.
  destruct Hrun as [e He|dt Hdt Hm|dt e Hdt Hm He|dt dt' Hdt Hm Hset];
    simpl; rewrite ?Hcall; (split; [done|]); split.
  all: try (intros ev; rewrite ?elem_of_cons, ?elem_of_nil; tauto).
  all: intros x Hx; try discriminate.
  all: split; [rewrite ?elem_of_cons; tauto | eauto].
Qed.

Lemma result_run_took data r evs p :
  result_run data r evs -> took p evs = planned p data.
Proof.
  intros Hrun. unfold planned.
  destruct Hrun as [e Hplan|ds d ps pg Hplan|? ? ? ? ? ? r tail Hplan ? ? ? ? ? ? Heng];
    rewrite Hplan.
  - by destruct p.
  - by destruct p.
  - destruct p; simpl; [|done].
    by apply engine_run_events in Heng as [-> _].
Qed.

Lemma post_valid_took data w p :
  took p (events_since w (post_valid data w).2) = planned p data.
Proof.
  destruct (post_result_run data) as (r & evs & Hrun & Heq).
  rewrite (post_valid_run _ _ _ Heq).
  rewrite <- (result_run_took _ _ _ p Hrun).
  destruct r; simpl; rewrite events_since_log; [|done].
  rewrite took_app. simpl. by destruct p; rewrite orb_false_r.
Qed.

Lemma events_since_refl w : events_since w w = [].
Proof. unfold events_since. by rewrite drop_all. Qed.

Lemma events_after_history h raw evs w :
  events_since w (log evs (log [EvIsValid raw] (saved h w)))
  = EvHistorySave h :: EvIsValid raw :: evs.
Proof. by rewrite log_log, events_since_saved. Qed.

(** The path a request takes: none when [add_history] fails or the
    serializer rejects the body, the planned one otherwise. *)
Lemma post_took req w p :
  took p (events_since w (post req w).2) =
  negb (owner_missing w (req_user req)) &&
  match is_valid (req_data req) with
  | Valid data => planned p data
  | Invalid _ => false
  end.
Proof.
  rewrite post_run. simpl.
  destruct (owner_missing _ _); simpl; [by rewrite events_since_refl|].
  destruct (is_valid (req_data req)) as [data|errors] eqn:Hv.
  - destruct (post_result_run data) as (r & evs & Hrun & Heq).
    rewrite (post_valid_run _ _ _ Heq).
    rewrite <- (result_run_took _ _ _ p Hrun).
    destruct r; simpl; rewrite events_after_history; simpl.
    + rewrite took_app. simpl. rewrite orb_false_r. by destruct p.
    + by destruct p.
  - simpl. rewrite events_since_saved. by destruct p.
Qed.

End Runs.

(** ** The planner *)

Lemma plan_inv data p :
  plan data = Ok p ->
  exists dataset dimensions fast,
    data !! "dataset" = Some dataset /\
    data !! "dimensions" = Some dimensions /\
    fast_path_eligible (dict_get data "filters" (PyList []))
                       (dict_get data "exclude" (PyList [])) dimensions = Ok fast /\
    if fast : bool
    then p = FastPath /\ exists ds, dataset = PyDataset ds
    else p = GeneralPath.
Proof.
  unfold plan, getitem. unres.
  destruct (data !! "dataset") as [dataset|]; [|discriminate].
  destruct (data !! "dimensions") as [dimensions|]; [|discriminate].
  destruct (read_groups data); [|discriminate].
  destruct (read_page_size data); [|discriminate].
  destruct (read_page data); [|discriminate].
  destruct (fast_path_eligible _ _ dimensions) as [fast|] eqn:Hfast; [|discriminate].
  intros Hp. exists dataset, dimensions, fast.
  split; [done|]. split; [done|]. split; [done|].
  destruct fast.
  - destruct dataset; try discriminate. injection Hp as <-. eauto.
  - destruct (star_args dimensions); [|discriminate]. by injection Hp as <-.
Qed.

Lemma plan_fast data : plan data = Ok FastPath <->
  fast_path_conditions data /\
  (exists ds, data !! "dataset" = Some (PyDataset ds)) /\
  (exists g, read_groups data = Ok g) /\
  (exists n, read_page_size data = Ok n) /\
  (exists p, read_page data = Ok p).
Proof.
  split.
  - intros Hplan. pose proof Hplan as Hinv.
    apply plan_inv in Hinv as (dataset & dimensions & fast & Hds & Hdims & Hfast & Hp).
    destruct fast; [|discriminate]. destruct Hp as [_ [ds ->]].
    apply fast_path_eligible_true in Hfast as (Hf & He & d & -> & Hcat).
    split; [by (repeat split; eauto)|]. split; [eauto|].
    revert Hplan. unfold plan, getitem. rewrite Hds, Hdims. unres.
    destruct (read_groups data); [|discriminate].
    destruct (read_page_size data); [|discriminate].
    destruct (read_page data); [|discriminate]. intros _. repeat split; eauto.
  - intros ((Hf & He & d & Hdims & Hcat) & (ds & Hds) & (g & Hg) & (n & Hn) & (p & Hp)).
    unfold plan, getitem. rewrite Hds, Hdims, Hg, Hn, Hp, Hf, He. unres.
    by rewrite Hcat.
Qed.

Lemma plan_general_not_fast data :
  plan data = Ok GeneralPath -> ~ fast_path_conditions data.
Proof.
  intros Hplan (Hf & He & d & Hdims & Hcat).
  apply plan_inv in Hplan as (dataset & dimensions & fast & Hds & Hdims' & Hfast & Hp).
  destruct fast; [by destruct Hp|].
  rewrite Hdims in Hdims'. injection Hdims' as <-.
  rewrite Hf, He in Hfast. revert Hfast. unfold fast_path_eligible.
  unres. rewrite Hcat. discriminate.
Qed.

Lemma plan_typed data :
  typed_data data -> plan data = Ok FastPath \/ plan data = Ok GeneralPath.
Proof.
  intros ((ds & Hds) & (dims & Hdims) & (g & Hg) & (n & Hn) & (p & Hp)).
  unfold plan, getitem. rewrite Hds, Hdims, Hg, Hn, Hp. unres.
  destruct (fast_path_eligible_total (dict_get data "filters" (PyList []))
              (dict_get data "exclude" (PyList [])) dims) as [[|] ->]; tauto.
Qed.

Lemma planned_true p data : planned p data = true <-> plan data = Ok p.
Proof.
  unfold planned. destruct (plan data) as [[|]|]; destruct p; simpl;
    split; congruence.
Qed.

(** [plan] looks at seven entries of the validated data and at no other. *)
Lemma plan_ext data data' :
  data !! "dataset" = data' !! "dataset" ->
  data !! "dimensions" = data' !! "dimensions" ->
  data !! "filters" = data' !! "filters" ->
  data !! "exclude" = data' !! "exclude" ->
  data !! "groups" = data' !! "groups" ->
  data !! "page_size" = data' !! "page_size" ->
  data !! "page" = data' !! "page" ->
  plan data = plan data'.
Proof.
  intros Hds Hdims Hf He Hg Hps Hpg.
  unfold plan, getitem, read_groups, read_page_size, read_page,
    dict_get_none, dict_get.
  by rewrite Hds, Hdims, Hf, He, Hg, Hps, Hpg.
Qed.

Section PostClaims.

Context `{Collaborators}.

(** Where the result of a run that returned comes from. *)
Lemma result_run_source data x evs :
  result_run data (Ok x) evs ->
  (exists ds dimension search_key page page_size mode,
      evs = [EvPrecalc ds dimension search_key page page_size mode] /\
      get_precalc_distribution ds dimension search_key page page_size mode = Ok x) \/
  (exists dt dataset filters exclude page_size page search_key groups,
      EvGenerate dataset filters exclude page_size page search_key groups ∈ evs /\
      generate dt dataset filters exclude page_size page search_key groups = Ok x /\
      took FastPath evs = false).
Proof.
  intros Hrun. inversion Hrun as
      [|ds d ps pg Hplan Hds Hdims Hps Hpg Hres
       |dataset dims args groups ps pg r tail Hplan Hds Hdims Hargs Hg Hps Hpg Heng];
    subst.
  - left. eexists _, _, _, _, _, _. split; [reflexivity|]. by symmetry.
  - right. apply engine_run_events in Heng as (Hfast & _ & Hok); [|done].
    destruct (Hok x eq_refl) as (Hin & dt & Hgen).
    eexists dt, _, _, _, _, _, _, _. split; [|split; [exact Hgen|]].
    + apply elem_of_cons. right. exact Hin.
    + exact Hfast.
Qed.

(** The calls of a run carry the normalised [page_size] and [page]. *)
Lemma result_run_paging data r evs ev page_size page :
  result_run data r evs -> ev ∈ evs ->
  paging_of_call ev = Some (page_size, page) ->
  read_page_size data = Ok page_size /\ read_page data = Ok page.
Proof.
  intros Hrun Hin Hpaging.
  destruct Hrun as
      [e He|ds d ps pg Hplan Hds Hdims Hps Hpg
       |dataset dims args groups ps pg r tail Hplan Hds Hdims Hargs Hg Hps Hpg Heng].
  - by apply elem_of_nil in Hin.
  - apply list_elem_of_singleton in Hin as ->. simpl in Hpaging.
    by injection Hpaging as <- <-.
  - apply elem_of_cons in Hin as [->|Hin]; [discriminate|].
    apply engine_run_events in Heng as (_ & Htail & _); [|done].
    destruct (Htail _ Hin) as [->| ->]; [discriminate|].
    simpl in Hpaging. by injection Hpaging as <- <-.
Qed.

(** C10.  [post] calls [add_history] first: a row of type
    ['data-table'] holding [json.dumps] of the raw request body is
    appended to the history table, and that save comes before the
    serializer is asked whether the body is valid.  The row is there
    also when the body is rejected with the 400 response.  The acting
    user is the anonymous user or a row of the user table. *)
Theorem history_saved_before_validation req w :
  user_known w (req_user req) ->
  let h := history_row w (req_user req) "data-table" (req_data req) in
  let w' := (post req w).2 in
  ah_type h = "data-table" /\
  ah_contents h = json_dumps (req_data req) /\
  w_history w' = (w_history w ++ [h])%list /\
  (exists rest,
      events_since w w' = EvHistorySave h :: EvIsValid (req_data req) :: rest) /\
  (forall errors,
      is_valid (req_data req) = Invalid errors ->
      (post req w).1 = Ok (mkResponse HTTP_400_BAD_REQUEST (Some errors))).
Proof.
  intros Hu h w'. subst h w'. split; [done|]. split; [done|].
  rewrite post_run, (user_known_owner _ _ Hu). cbv zeta.
  destruct (is_valid (req_data req)) as [data|errors].
  - destruct (post_result_run data) as (r & evs & _ & Heq).
    rewrite (post_valid_run _ _ _ Heq).
    destruct r; cbn [fst snd].
    + split; [done|]. split; [|discriminate].
      eexists. by rewrite events_after_history.
    + split; [done|]. split; [|discriminate].
      eexists. by rewrite events_after_history.
  - cbn [fst snd]. split; [done|]. split.
    + exists []. by rewrite events_since_saved.
    + by intros ? [= <-].
Qed.


(** C4.  A run of [post] never calls both the distribution store and
    the table engine, and the [result] of a 200 response is the answer
    of exactly the one it called: the store's when the fast path was
    taken, [generate]'s otherwise. *)
Theorem one_path_per_request req w :
  let evs := events_since w (post req w).2 in
  took FastPath evs && took GeneralPath evs = false /\
  (forall resp,
      (post req w).1 = Ok resp -> resp_status resp = HTTP_200_OK ->
      exists data result output,
        is_valid (req_data req) = Valid data /\
        serializer_data (<["result" := result]> data) = Ok output /\
        resp_body resp = Some output /\
        ((exists ds dimension search_key page page_size mode,
             EvPrecalc ds dimension search_key page page_size mode ∈ evs /\
             get_precalc_distribution ds dimension search_key page page_size mode
             = Ok result /\
             took GeneralPath evs = false) \/
         (exists dt dataset filters exclude page_size page search_key groups,
             EvGenerate dataset filters exclude page_size page search_key groups ∈ evs /\
             generate dt dataset filters exclude page_size page search_key groups
             = Ok result /\
             took FastPath evs = false))).
Proof.
  intros evs. split.
  - subst evs. rewrite !post_took.
    destruct (owner_missing _ _); [done|]. simpl.
    destruct (is_valid _) as [data|]; [|done].
    unfold planned. by destruct (plan data) as [[|]|].
  - intros resp Hres Hstatus. subst evs. revert Hres.
    rewrite post_run. cbv zeta.
    destruct (owner_missing _ _); [discriminate|].
    destruct (is_valid (req_data req)) as [data|errors].
    2:{ cbn [fst snd]. intros [= <-]. discriminate. }
    destruct (post_result_run data) as (r & evs & Hrun & Heq).
    rewrite (post_valid_run _ _ _ Heq).
    destruct r as [result|e]; [|discriminate]. cbn [fst snd].
    destruct (serializer_data _) as [output|e] eqn:Hout; [|discriminate].
    intros [= <-]. exists data, result, output.
    split; [done|]. split; [done|]. split; [done|].
    rewrite events_after_history.
    apply result_run_source in Hrun
      as [(ds & dim & sk & pg & ps & mode & -> & Hstore)
         |(dt & dset & f & e & ps & pg & sk & g & Hin & Hgen & Hfast)].
    + left. exists ds, dim, sk, pg, ps, mode. split; [|split; [done|done]].
      simpl. rewrite !elem_of_cons. auto.
    + right. exists dt, dset, f, e, ps, pg, sk, g. split; [|split; [done|]].
      * rewrite !elem_of_cons, elem_of_app. auto.
      * simpl. rewrite took_app, Hfast. done.
Qed.

(** [post_result] reads the validated data through these lookups only. *)
Lemma post_result_ext data data' :
  data !! "dataset" = data' !! "dataset" ->
  data !! "dimensions" = data' !! "dimensions" ->
  dict_get data "filters" (PyList []) = dict_get data' "filters" (PyList []) ->
  dict_get data "exclude" (PyList []) = dict_get data' "exclude" (PyList []) ->
  dict_get data "groups" (PyList []) = dict_get data' "groups" (PyList []) ->
  data !! "search_key" = data' !! "search_key" ->
  data !! "mode" = data' !! "mode" ->
  data !! "page_size" = data' !! "page_size" ->
  data !! "page" = data' !! "page" ->
  post_result data = post_result data'.
Proof.
  intros Hds Hdims Hf He Hg Hsk Hm Hps Hpg.
  unfold post_result, getitem, read_groups, read_page_size, read_page, dict_get_none.
  rewrite Hf, He, Hg. unfold dict_get.
  by rewrite Hds, Hdims, Hsk, Hm, Hps, Hpg.
Qed.

(** C1, as the code has it.  For a request that passes validation with
    data of the expected types, the distribution store is called
    exactly when [filters] is an empty list, [exclude] is an empty
    list and [dimensions] holds one categorical dimension, and the
    table engine is called in every other case.  Whether [groups] is
    given plays no part. *)
Theorem fast_path_iff_conditions req w data :
  user_known w (req_user req) ->
  is_valid (req_data req) = Valid data ->
  typed_data data ->
  let evs := events_since w (post req w).2 in
  (took FastPath evs = true <-> fast_path_conditions data) /\
  (took GeneralPath evs = true <-> ~ fast_path_conditions data).
Proof.
  intros Hu Hv Htyped evs. subst evs.
  rewrite !post_took, (user_known_owner _ _ Hu), Hv. simpl.
  rewrite !planned_true. split.
  - rewrite plan_fast. destruct Htyped as (? & _ & ? & ? & ?). tauto.
  - split; [apply plan_general_not_fast|].
    intros Hnot. destruct (plan_typed _ Htyped) as [Hfast|Hgen]; [|done].
    apply plan_fast in Hfast. tauto.
Qed.

(** C5.  Two requests of one user whose validated data agree on every
    field but [mode] are planned alike, and their runs call the same
    collaborator: the store in both, the engine in both, or neither. *)
Theorem mode_does_not_change_the_path req req' w data data' :
  req_user req = req_user req' ->
  is_valid (req_data req) = Valid data ->
  is_valid (req_data req') = Valid data' ->
  (forall k, k <> "mode" -> data !! k = data' !! k) ->
  plan data = plan data' /\
  forall p, took p (events_since w (post req w).2)
            = took p (events_since w (post req' w).2).
Proof.
  intros Hu Hv Hv' Hsame.
  assert (Hplan : plan data = plan data') by (apply plan_ext; by apply Hsame).
  split; [done|]. intros p.
  rewrite !post_took, Hu, Hv, Hv'. unfold planned. by rewrite Hplan.
Qed.

(** C6, as the code has it.  On the fast path the store is called once,
    with the dataset, the single dimension, [search_key], the
    normalised [page] and [page_size], and also [mode]; its answer is
    put unchanged under [result] in the data handed to the response
    serializer, and an exception of the store is passed on. *)
Theorem fast_path_returns_store_answer data :
  plan data = Ok FastPath ->
  exists ds d page_size page,
    data !! "dataset" = Some (PyDataset ds) /\
    data !! "dimensions" = Some (PyList [PyDimension d]) /\
    read_page_size data = Ok page_size /\
    read_page data = Ok page /\
    forall w,
      post_valid data w =
      let search_key := dict_get_none data "search_key" in
      let mode := dict_get_none data "mode" in
      let call := EvPrecalc ds (PyDimension d) search_key page page_size mode in
      match get_precalc_distribution ds (PyDimension d) search_key page page_size mode with
      | Ok result =>
          ((fun o => mkResponse HTTP_200_OK (Some o))
             <$> serializer_data (<["result" := result]> data),
           log [call; EvSerialize (<["result" := result]> data)] w)
      | Raise e => (Raise e, log [call] w)
      end.
Proof.
  intros Hplan.
  destruct (post_result_run data) as (r & evs & Hrun & Heq).
  inversion Hrun as
      [e He|ds d ps pg _ Hds Hdims Hps Hpg
       |dataset dims args groups ps pg r' tail Hgen]; subst; try congruence.
  exists ds, d, ps, pg. repeat (split; [done|]).
  intros w. by rewrite (post_valid_run _ _ _ Heq).
Qed.

(** C3, as the code has it.  A supplied non-zero [page_size] becomes
    [max(1, page_size)] and a supplied non-zero [page] becomes
    [max(1, page)]; an omitted (or zero) [page_size] becomes 100; an
    omitted (or zero) [page] stays unset.  These are the values every
    call to the store or to [generate] carries. *)
Theorem paging_normalisation data :
  (forall n, data !! "page_size" = Some (PyInt n) -> n <> 0 ->
             read_page_size data = Ok (Z.max 1 n)) /\
  (data !! "page_size" = None \/ data !! "page_size" = Some (PyInt 0) ->
   read_page_size data = Ok 100) /\
  (forall n, data !! "page" = Some (PyInt n) -> n <> 0 ->
             read_page data = Ok (Some (Z.max 1 n))) /\
  (data !! "page" = None \/ data !! "page" = Some (PyInt 0) ->
   read_page data = Ok None) /\
  (forall w ev page_size page,
      ev ∈ events_since w (post_valid data w).2 ->
      paging_of_call ev = Some (page_size, page) ->
      read_page_size data = Ok page_size /\ read_page data = Ok page).
Proof.
  unfold read_page_size, read_page, dict_get_none, dict_get.
  split; [|split; [|split; [|split]]].
  - intros n -> Hn. simpl. by destruct (Z.eqb_spec n 0).
  - by intros [-> | ->].
  - intros n -> Hn. simpl. by destruct (Z.eqb_spec n 0).
  - by intros [-> | ->].
  - intros w ev ps pg Hin Hpaging.
    destruct (post_result_run data) as (r & evs & Hrun & Heq).
    rewrite (post_valid_run _ _ _ Heq) in Hin.
    apply (result_run_paging data r evs ev ps pg Hrun); [|done].
    destruct r; cbn [fst snd] in Hin; rewrite events_since_log in Hin; [|done].
    apply elem_of_app in Hin as [Hin|Hin]; [done|].
    apply list_elem_of_singleton in Hin as ->. discriminate.
Qed.

(** C9, as the code has it.  Leaving out [filters], [exclude] or
    [groups] and giving it as an empty list are the same to the
    planner and to the collaborators: the same path, the same calls
    with the same arguments, the same result or exception. *)
Theorem absent_is_empty_list k data :
  k = "filters" \/ k = "exclude" \/ k = "groups" ->
  plan (delete k data) = plan (<[k := PyList []]> data) /\
  forall w, post_result (delete k data) w = post_result (<[k := PyList []]> data) w.
Proof.
  intros Hk.
  assert (Hother : forall k', k' <> k ->
            delete k data !! k' = <[k := PyList []]> data !! k').
  { intros k' Hne. by rewrite lookup_delete_ne, lookup_insert_ne. }
  assert (Hget : forall k', dict_get (delete k data) k' (PyList [])
                            = dict_get (<[k := PyList []]> data) k' (PyList [])).
  { intros k'. unfold dict_get. destruct (decide (k' = k)) as [->|Hne].
    - by rewrite lookup_delete_eq, lookup_insert_eq.
    - by rewrite Hother. }
  split.
  - unfold plan, read_groups. rewrite !Hget.
    unfold getitem, read_page_size, read_page, dict_get_none, dict_get.
    rewrite !Hother; [done|..]; destruct Hk as [->|[->| ->]]; done.
  - intros w.
    rewrite (post_result_ext (delete k data) (<[k := PyList []]> data));
      [done|..]; try apply Hget;
      apply Hother; destruct Hk as [->|[->| ->]]; done.
Qed.

End PostClaims.

(** ** Splitting the query *)

Lemma append_assoc (a b c : string) : (a ++ b) ++ c = a ++ (b ++ c).
Proof.
  induction a as [|x a IH]; [done|].
  change (String x ((a ++ b) ++ c) = String x (a ++ b ++ c)). by rewrite IH.
Qed.

Lemma py_split_nonempty sep s : py_split sep s <> [].
Proof.
  destruct s as [|c r]; simpl; [done|].
  destruct (Ascii.eqb c sep); [done|]. by destruct (py_split sep r).
Qed.

(** Joining the pieces with the separator gives the string back. *)
Lemma py_join_split sep s :
  py_join (String sep EmptyString) (py_split sep s) = s.
Proof.
  unfold py_join. induction s as [|c r IH]; simpl; [done|].
  pose proof (py_split_nonempty sep r) as Hne.
  destruct (Ascii.eqb_spec c sep) as [->|Hc].
  - destruct (py_split sep r) as [|piece pieces]; [done|].
    simpl in *. by rewrite IH.
  - destruct (py_split sep r) as [|piece pieces]; [done|].
    destruct pieces; simpl in *; by rewrite <- IH.
Qed.


(** ** The database order *)

Lemma insert_by_count_perm r rows : Permutation (r :: rows) (insert_by_count r rows).
Proof.
  induction rows as [|x rest IH]; simpl; [done|].
  destruct (pcd_count r <? pcd_count x)%Z; [|done].
  rewrite <- IH. apply perm_swap.
Qed.

Lemma insert_by_count_sorted r rows :
  StronglySorted count_desc rows -> StronglySorted count_desc (insert_by_count r rows).
Proof.
  induction rows as [|x rest IH]; simpl; intros Hsorted.
  - by repeat constructor.
  - apply StronglySorted_inv in Hsorted as [Hrest Hx].
    destruct (Z.ltb_spec (pcd_count r) (pcd_count x)) as [Hlt|Hle].
    + constructor; [by apply IH|].
      rewrite <- (insert_by_count_perm r rest).
      constructor; [unfold count_desc; lia|done].
    + constructor; [by constructor|].
      constructor; [unfold count_desc; lia|].
      eapply Forall_impl; [exact Hx|]. unfold count_desc. intros; lia.
Qed.

(** The test double's order is one a database may give. *)
Lemma stable_count_desc_orders : orders_by_count_desc stable_count_desc.
Proof.
  intros rows. unfold stable_count_desc. split.
  - induction rows as [|r rows IH]; simpl; [done|].
    rewrite <- insert_by_count_perm. by constructor.
  - induction rows as [|r rows IH]; simpl; [constructor|].
    by apply insert_by_count_sorted.
Qed.

Section KeywordClaims.

Context `{Collaborators}.

(** The database keeps its promise for [order_by('-count')]. *)
Hypothesis database_orders : orders_by_count_desc order_by_count_desc.





(** The view with a [dataset] and a [q]: the completions are what the
    response serializer is given, and each comes back as [{"text": ...}]. *)
Lemma get_with_q u query_params w dataset_id q pk :
  owner_missing w u = false ->
  query_params !! "dataset" = Some dataset_id ->
  dataset_id <> EmptyString ->
  query_params !! "q" = Some q ->
  int_of_str dataset_id = Ok pk ->
  (get u query_params w).1 =
  (output ← keyword_serializer_data
             (<["keywords" := PyList (PyStr <$> complete_keywords w pk q)]>
                (<["q" := PyStr q]> {[ "dataset" := PyStr dataset_id ]}));
   output ← wrap_texts output;
   mret (mkResponse HTTP_200_OK (Some output))).
Proof.
  intros Hu Hds Hne Hq Hpk. unfold get.
  pose proof (add_history_run u "auto-complete:get-list" (PyStr <$> query_params) w)
    as Hadd.
  rewrite Hu in Hadd.
  unfold mbind, mret, M_bind, M_ret, lift, get_world in *. rewrite Hadd, Hds. simpl.
  destruct (String.eqb_spec dataset_id "") as [->|_]; [done|]. simpl.
  rewrite Hq, Hpk. unfold Res_bind, res_bind.
  change (complete_keywords (saved _ w) pk q) with (complete_keywords w pk q).
  destruct (keyword_serializer_data _) as [output|e]; [|done].
  by destruct (wrap_texts output).
Qed.

End KeywordClaims.

(** * The properties at work, on the test double *)

#[local] Existing Instance echo.

Lemma hashtags_request_typed : typed_data hashtags_request.
Proof.
  split; [by exists (mkDataset 1)|]. split; [by exists [hashtags]|].
  split; [by exists PyNone|]. split; [by exists 100|]. by exists None.
Defined.

(** C10 at work: an empty body is rejected, and its history row is there. *)
Lemma history_saved_before_validation_witness :
  user_known empty_world anonymous /\
  w_history (post (mkRequest anonymous ∅) empty_world).2
  = [history_row empty_world anonymous "data-table" ∅] /\
  (post (mkRequest anonymous ∅) empty_world).1
  = Ok (mkResponse HTTP_400_BAD_REQUEST
                   (Some {[ "detail" := PyStr "This field is required." ]})).
Proof.
  assert (Hu : user_known empty_world anonymous) by exact I.
  pose proof (history_saved_before_validation (mkRequest anonymous ∅) empty_world Hu)
    as (_ & _ & Hrow & _ & Hresp).
  split; [exact Hu|]. split; [exact Hrow|].
  apply Hresp. reflexivity.
Defined.


(** C4 at work: the plain request is answered by the store alone. *)
Lemma one_path_per_request_witness :
  let run := post (mkRequest anonymous hashtags_request) empty_world in
  let evs := events_since empty_world run.2 in
  exists resp,
    run.1 = Ok resp /\ resp_status resp = HTTP_200_OK /\
    took FastPath evs && took GeneralPath evs = false /\
    exists data result output,
      is_valid hashtags_request = Valid data /\
      serializer_data (<["result" := result]> data) = Ok output /\
      resp_body resp = Some output.
Proof.
  intros run evs.
  pose proof (one_path_per_request (mkRequest anonymous hashtags_request) empty_world)
    as [Hexclusive Hsource].
  eexists. split; [vm_compute; reflexivity|]. split; [reflexivity|].
  split; [exact Hexclusive|].
  edestruct Hsource as (data & result & output & Hv & Hout & Hbody & _);
    [vm_compute; reflexivity|reflexivity|].
  exists data, result, output. repeat split; assumption.
Defined.

(** C1 at work: no filters and one categorical dimension. *)
Lemma fast_path_iff_conditions_witness :
  user_known empty_world anonymous /\
  is_valid hashtags_request = Valid hashtags_request /\
  typed_data hashtags_request /\
  (took FastPath (events_since empty_world
                    (post (mkRequest anonymous hashtags_request) empty_world).2) = true
   <-> fast_path_conditions hashtags_request).
Proof.
  assert (Hu : user_known empty_world anonymous) by exact I.
  assert (Hv : is_valid (req_data (mkRequest anonymous hashtags_request))
               = Valid hashtags_request) by reflexivity.
  split; [exact Hu|]. split; [exact Hv|]. split; [exact hashtags_request_typed|].
  exact (proj1 (fast_path_iff_conditions (mkRequest anonymous hashtags_request)
                  empty_world hashtags_request Hu Hv hashtags_request_typed)).
Defined.

(** C1 as stated fails: with [groups] given, the request still goes to
    the distribution store. *)
Lemma grouped_request_takes_fast_path :
  let data := <["groups" := PyList [PyInt 7]]> hashtags_request in
  let evs := events_since empty_world (post (mkRequest anonymous data) empty_world).2 in
  is_valid data = Valid data /\
  read_groups data = Ok (PyList [PyInt 7]) /\
  took FastPath evs = true /\
  ~ (took FastPath evs = true <-> spec_fast_path_conditions data).
Proof.
  intros data evs.
  assert (Hfast : took FastPath evs = true) by (vm_compute; reflexivity).
  assert (Hgroups : read_groups data = Ok (PyList [PyInt 7])) by (vm_compute; reflexivity).
  split; [vm_compute; reflexivity|]. split; [exact Hgroups|]. split; [exact Hfast|].
  intros [Hto _]. destruct (Hto Hfast) as [_ Habsent].
  unfold grouping_absent in Habsent. rewrite Hgroups in Habsent. discriminate.
Qed.

(** C5 at work: a [mode] added to the plain request. *)
Lemma mode_does_not_change_the_path_witness :
  let data' := <["mode" := PyStr "cumulative"]> hashtags_request in
  (forall k, k <> "mode" -> hashtags_request !! k = data' !! k) /\
  plan hashtags_request = plan data' /\
  took FastPath (events_since empty_world
                   (post (mkRequest anonymous hashtags_request) empty_world).2)
  = took FastPath (events_since empty_world
                     (post (mkRequest anonymous data') empty_world).2).
Proof.
  intros data'.
  assert (Hsame : forall k, k <> "mode" -> hashtags_request !! k = data' !! k).
  { intros k Hk. subst data'. symmetry. apply lookup_insert_ne. congruence. }
  pose proof (mode_does_not_change_the_path
                (mkRequest anonymous hashtags_request) (mkRequest anonymous data')
                empty_world hashtags_request data' eq_refl eq_refl eq_refl Hsame)
    as [Hplan Htook].
  split; [exact Hsame|]. split; [exact Hplan|exact (Htook FastPath)].
Defined.

(** C6 at work: the plain request is planned for the fast path. *)
Lemma fast_path_returns_store_answer_witness :
  plan hashtags_request = Ok FastPath /\
  exists ds d page_size page,
    hashtags_request !! "dataset" = Some (PyDataset ds) /\
    hashtags_request !! "dimensions" = Some (PyList [PyDimension d]) /\
    read_page_size hashtags_request = Ok page_size /\
    read_page hashtags_request = Ok page.
Proof.
  assert (Hplan : plan hashtags_request = Ok FastPath) by reflexivity.
  split; [exact Hplan|].
  destruct (fast_path_returns_store_answer hashtags_request Hplan)
    as (ds & d & ps & pg & Hds & Hdims & Hps & Hpg & _).
  exists ds, d, ps, pg. repeat split; assumption.
Defined.

(** C6 as stated fails: two requests alike in dataset, dimension,
    search key, page and page size, of which one names a [mode]; the
    store is called with that [mode] and answers differently. *)
Lemma store_call_carries_mode :
  let d1 := hashtags_request in
  let d2 := <["mode" := PyStr "cumulative"]> hashtags_request in
  plan d1 = Ok FastPath /\ plan d2 = Ok FastPath /\
  d1 !! "dataset" = d2 !! "dataset" /\
  d1 !! "dimensions" = d2 !! "dimensions" /\
  dict_get_none d1 "search_key" = dict_get_none d2 "search_key" /\
  read_page d1 = read_page d2 /\
  read_page_size d1 = read_page_size d2 /\
  (post_result d2 empty_world).2
  = log [EvPrecalc (mkDataset 1) (PyDimension hashtags) PyNone None 100
                   (PyStr "cumulative")] empty_world /\
  (post_result d1 empty_world).1 <> (post_result d2 empty_world).1.
Proof.
  repeat split; try (vm_compute; reflexivity).
  vm_compute. intros Heq. discriminate Heq.
Qed.

(** C3 at work: a [page_size] of -3 becomes 1. *)
Lemma paging_normalisation_witness :
  let data := <["page_size" := PyInt (-3)]> hashtags_request in
  data !! "page_size" = Some (PyInt (-3)) /\ -3 <> 0 /\
  read_page_size data = Ok (Z.max 1 (-3)).
Proof.
  intros data.
  assert (Hps : data !! "page_size" = Some (PyInt (-3))) by reflexivity.
  assert (Hnz : -3 <> 0) by discriminate.
  split; [exact Hps|]. split; [exact Hnz|].
  exact (proj1 (paging_normalisation data) (-3) Hps Hnz).
Defined.

(** C3 as stated fails: without a [page] the page stays unset, it does
    not become 1, and the store is called with no page. *)
Lemma omitted_page_stays_unset :
  hashtags_request !! "page" = None /\
  read_page hashtags_request = Ok None /\
  read_page hashtags_request <> Ok (Some 1) /\
  omap paging_of_call
       (events_since empty_world
          (post (mkRequest anonymous hashtags_request) empty_world).2)
  = [(100, None)].
Proof.
  split; [reflexivity|]. split; [reflexivity|]. split; [|vm_compute; reflexivity].
  vm_compute. intros Heq. discriminate Heq.
Qed.

(** C9 at work: [filters] left out of, or empty in, the plain request. *)
Lemma absent_is_empty_list_witness :
  ("filters" = "filters" \/ "filters" = "exclude" \/ "filters" = "groups") /\
  plan (delete "filters" hashtags_request)
  = plan (<["filters" := PyList []]> hashtags_request).
Proof.
  assert (Hk : "filters" = "filters" \/ "filters" = "exclude" \/ "filters" = "groups")
    by (left; reflexivity).
  split; [exact Hk|].
  exact (proj1 (absent_is_empty_list "filters" hashtags_request Hk)).
Defined.

(** C9 as stated fails: a null [filters] is not collapsed; it sends the
    request down the general path, with [None] handed to [generate]. *)
Lemma null_filters_are_not_collapsed :
  let absent := delete "filters" hashtags_request in
  let null := <["filters" := PyNone]> hashtags_request in
  plan absent = Ok FastPath /\
  plan null = Ok GeneralPath /\
  took FastPath (events_since empty_world (post_result absent empty_world).2) = true /\
  took FastPath (events_since empty_world (post_result null empty_world).2) = false /\
  (post_result absent empty_world).1 <> (post_result null empty_world).1.
Proof.
  repeat split; try (vm_compute; reflexivity).
  vm_compute. intros Heq. discriminate Heq.
Qed.






(** [int] on strings. *)
Example int_of_str_examples :
  int_of_str " 12 " = Ok 12 /\ int_of_str "-5" = Ok (-5) /\
  int_of_str "+07" = Ok 7 /\ int_of_str "" = Raise ValueError /\
  int_of_str "- 5" = Ok (-5) /\ int_of_str "1 2" = Raise ValueError /\
  int_of_str (String (ascii_of_nat 160) "5") = Ok 5 /\
  int_of_str "-" = Raise ValueError /\ int_of_str "5L" = Raise ValueError.
Proof. repeat split; reflexivity. Qed.

(** * More about [add_history] and [DataTableView.post] *)

Section MoreOnPost.

Context `{Collaborators}.

(** X1.  [add_history] either fails with [DoesNotExist] and writes
    nothing, which happens exactly when the acting user has an id, a
    user with id 1 exists and the acting user has no row; or it appends
    one row, marked as coming from the server, to the history and
    touches no other table.  The row is owned by the acting user only
    when that user has an id and a user with id 1 exists. *)
Theorem add_history_outcome u type contents w :
  let run := add_history u type contents w in
  (owner_missing w u = true -> run = (Raise DoesNotExist, w)) /\
  (owner_missing w u = false ->
   exists row,
     run = (Ok tt, saved row w) /\
     ah_type row = type /\ ah_contents row = json_dumps contents /\
     ah_from_server row = true /\
     (ah_owner row = user_id u \/ ah_owner row = None) /\
     (ah_owner row = None <-> user_id u = None \/ count_users 1 w = 0%nat)).
Proof.
  intros run. subst run. rewrite add_history_run. split.
  - by intros ->.
  - intros Hmissing. rewrite Hmissing.
    exists (history_row w u type contents). split; [done|].
    unfold history_row. simpl. repeat (split; [done|]).
    destruct (user_id u) as [uid|]; [|split; [by left|tauto]].
    destruct (count_users 1 w =? 0)%nat eqn:Hone.
    + apply Nat.eqb_eq in Hone. split; [by right|tauto].
    + apply Nat.eqb_neq in Hone. split; [by left|].
      split; [discriminate|]. intros [?|?]; [discriminate|done].
Qed.

Lemma post_valid_frame data w :
  exists evs, (post_valid data w).2 = log evs w.
Proof.
  destruct (post_result_run data) as (r & evs & _ & Heq).
  rewrite (post_valid_run _ _ _ Heq). destruct r; eauto.
Qed.

(** X2.  [post] writes to the history table and to nothing else: the
    tables of users, of distributions and of tweet words are as before,
    and the history is as before or longer by the one row of
    [add_history]. *)
Theorem post_only_writes_history req w :
  let w' := (post req w).2 in
  w_users w' = w_users w /\
  w_precalc w' = w_precalc w /\
  w_tweetwords w' = w_tweetwords w /\
  w_history w' =
  (if owner_missing w (req_user req) then w_history w
   else w_history w ++ [history_row w (req_user req) "data-table" (req_data req)])%list.
Proof.
  intros w'. subst w'. rewrite post_run. cbv zeta.
  destruct (owner_missing _ _); [done|].
  destruct (is_valid (req_data req)) as [data|errors]; [|done].
  destruct (post_valid_frame data
              (log [EvIsValid (req_data req)]
                 (saved (history_row w (req_user req) "data-table" (req_data req)) w)))
    as [evs ->].
  done.
Qed.

(** X3.  Validated data without a [dataset], or with a [dataset] but
    without [dimensions], ends the request with [KeyError] on that key:
    the history row is written, the serializer was asked, and neither
    the store nor the engine is called. *)
Theorem post_missing_key req w data :
  user_known w (req_user req) ->
  is_valid (req_data req) = Valid data ->
  data !! "dataset" = None \/ data !! "dimensions" = None ->
  let key := match data !! "dataset" with
             | Some _ => "dimensions"
             | None => "dataset"
             end in
  (post req w).1 = Raise (KeyError key) /\
  events_since w (post req w).2
  = [EvHistorySave (history_row w (req_user req) "data-table" (req_data req));
     EvIsValid (req_data req)].
Proof.
  intros Hu Hv Hmiss key.
  assert (Hplan : plan data = Raise (KeyError key)).
  { subst key. unfold plan, getitem. unres.
    destruct (data !! "dataset"); [|done].
    destruct Hmiss as [?|Hd]; [done|]. by rewrite Hd. }
  rewrite post_run, (user_known_owner _ _ Hu), Hv. cbv zeta.
  destruct (post_result_run data) as (r & evs & Hrun & Heq).
  rewrite (post_valid_run _ _ _ Heq).
  inversion Hrun; subst; try congruence.
  cbn [fst snd]. rewrite events_after_history. split; [congruence|done].
Qed.

(** X4.  A [groups] that has no length (a null, a number) ends the
    request with [TypeError] before the store or the engine is called;
    the history row is written all the same. *)
Theorem post_unsized_groups req w data dataset dimensions :
  user_known w (req_user req) ->
  is_valid (req_data req) = Valid data ->
  data !! "dataset" = Some dataset ->
  data !! "dimensions" = Some dimensions ->
  py_len (dict_get data "groups" (PyList [])) = Raise TypeError ->
  (post req w).1 = Raise TypeError /\
  events_since w (post req w).2
  = [EvHistorySave (history_row w (req_user req) "data-table" (req_data req));
     EvIsValid (req_data req)].
Proof.
  intros Hu Hv Hds Hdims Hlen.
  assert (Hplan : plan data = Raise TypeError).
  { unfold plan, getitem, read_groups. rewrite Hds, Hdims, Hlen. done. }
  rewrite post_run, (user_known_owner _ _ Hu), Hv. cbv zeta.
  destruct (post_result_run data) as (r & evs & Hrun & Heq).
  rewrite (post_valid_run _ _ _ Heq).
  inversion Hrun; subst; try congruence.
  cbn [fst snd]. rewrite events_after_history. split; [congruence|done].
Qed.

Lemma read_groups_sized data g :
  read_groups data = Ok g -> g = PyNone \/ exists n, py_len g = Ok (S n).
Proof.
  unfold read_groups. destruct (py_len (dict_get data "groups" (PyList []))) as [n|] eqn:Hlen;
    unres; [|discriminate].
  destruct n; intros [= <-]; eauto.
Qed.

(** X5.  [generate] is never handed an empty [groups]: what it gets is
    [None], or a value of positive length. *)
Theorem generate_groups_never_empty data w dataset filters exclude page_size page
        search_key groups :
  EvGenerate dataset filters exclude page_size page search_key groups
  ∈ events_since w (post_valid data w).2 ->
  groups = PyNone \/ exists n, py_len groups = Ok (S n).
Proof.
  intros Hin.
  destruct (post_result_run data) as (r & evs & Hrun & Heq).
  rewrite (post_valid_run _ _ _ Heq) in Hin.
  assert (Hevs : EvGenerate dataset filters exclude page_size page search_key groups ∈ evs).
  { destruct r; cbn [fst snd] in Hin; rewrite events_since_log in Hin; [|done].
    apply elem_of_app in Hin as [Hin|Hin]; [done|].
    apply list_elem_of_singleton in Hin. discriminate. }
  destruct Hrun as
      [e He|ds d ps pg Hplan Hds Hdims Hps Hpg
       |dset dims args g ps pg r tail Hplan Hds Hdims Hargs Hg Hps Hpg Heng].
  - by apply elem_of_nil in Hevs.
  - apply list_elem_of_singleton in Hevs. discriminate.
  - apply elem_of_cons in Hevs as [Hevs|Hevs]; [discriminate|].
    apply engine_run_events in Heng as (_ & Htail & _); [|done].
    destruct (Htail _ Hevs) as [Heq'|Heq']; [discriminate|].
    injection Heq' as -> -> -> -> -> -> ->.
    by apply read_groups_sized in Hg.
Qed.

(** X6.  A run down the general path that returns made its calls in
    this order: the table is built from the unpacked [dimensions], then
    [set_mode] is called if and only if a [mode] was given, then
    [generate] is called with [filters] and [exclude] as read.  Nothing
    else is called. *)
Theorem general_path_calls data w x :
  plan data = Ok GeneralPath ->
  (post_result data w).1 = Ok x ->
  exists dataset dimensions args groups page_size page,
    data !! "dataset" = Some dataset /\
    data !! "dimensions" = Some dimensions /\
    star_args dimensions = Ok args /\
    read_groups data = Ok groups /\
    read_page_size data = Ok page_size /\
    read_page data = Ok page /\
    events_since w (post_result data w).2
    = (EvDataTable args
         :: (if is_None (dict_get_none data "mode") then []
             else [EvSetMode (dict_get_none data "mode")])
         ++ [EvGenerate dataset (dict_get data "filters" (PyList []))
                        (dict_get data "exclude" (PyList [])) page_size page
                        (dict_get_none data "search_key") groups])%list.
Proof.
  intros Hplan Hres.
  destruct (post_result_run data) as (r & evs & Hrun & Heq).
  rewrite Heq in Hres |- *. cbn [fst snd] in *. subst r.
  rewrite events_since_log.
  inversion Hrun as
      [|ds d ps pg Hplan' _ _ _ _ Hr
       |dset dims args g ps pg r tail _ Hds Hdims Hargs Hg Hps Hpg Heng];
    subst; try congruence.
  exists dset, dims, args, g, ps, pg. repeat (split; [done|]).
  inversion Heng as [|dt Hdt Hm|dt e Hdt Hm Hset|dt dt' Hdt Hm Hset]; subst.
  - by rewrite Hm.
  - destruct (dict_get_none data "mode"); try done.
Qed.

End MoreOnPost.

(** * More about [KeywordView.get] *)

Lemma contains_char_count c s : contains_char c s = false <-> count_char c s = 0%nat.
Proof.
  unfold contains_char. induction s as [|x r IH]; simpl; [done|].
  rewrite (Ascii.eqb_sym c x). destruct (Ascii.eqb x c); simpl; [split; discriminate|].
  exact IH.
Qed.

Lemma py_split_count sep s :
  List.length (py_split sep s) = S (count_char sep s) /\
  (count_char sep s = 0%nat -> py_split sep s = [s]).
Proof.
  induction s as [|c r [IHlen IHone]]; simpl; [done|].
  pose proof (py_split_nonempty sep r) as Hne.
  destruct (Ascii.eqb c sep); simpl.
  - split; [by rewrite IHlen|discriminate].
  - destruct (py_split sep r) as [|piece pieces]; [done|].
    split; [exact IHlen|]. intros Hzero.
    specialize (IHone Hzero). by injection IHone as -> ->.
Qed.

(** Splitting gives one piece more than the string has separators;
    in particular a string without the separator is its own single
    piece, and the empty string gives one empty piece. *)
Theorem py_split_length sep s :
  List.length (py_split sep s) = S (count_char sep s) /\
  (count_char sep s = 0%nat -> py_split sep s = [s]).
Proof. exact (py_split_count sep s). Qed.

Lemma py_split_append sep piece rest :
  contains_char sep piece = false ->
  py_split sep (piece ++ String sep rest) = piece :: py_split sep rest.
Proof.
  unfold contains_char. induction piece as [|c p IH]; intros Hpiece.
  - change (EmptyString ++ String sep rest) with (String sep rest).
    simpl. by rewrite Ascii.eqb_refl.
  - change (String c p ++ String sep rest) with (String c (p ++ String sep rest)).
    simpl in *. apply orb_false_iff in Hpiece as [Hc Hp].
    rewrite Ascii.eqb_sym, Hc, (IH Hp). done.
Qed.

(** Splitting undoes joining: pieces that hold no separator, at
    least one of them, come back as they were. *)
Theorem py_split_join sep pieces :
  pieces <> [] ->
  Forall (fun piece => contains_char sep piece = false) pieces ->
  py_split sep (py_join (String sep EmptyString) pieces) = pieces.
Proof.
  unfold py_join. intros Hne Hpieces.
  induction Hpieces as [|piece rest Hpiece Hrest IH]; [done|].
  destruct rest as [|next rest].
  - simpl. apply py_split_count. by apply contains_char_count.
  - change (String.concat (String sep EmptyString) (piece :: next :: rest))
      with (piece ++ String sep EmptyString
                  ++ String.concat (String sep EmptyString) (next :: rest)).
    change (String sep EmptyString ++ ?x) with (String sep x).
    rewrite (py_split_append _ _ _ Hpiece), IH; done.
Qed.

Lemma concat_cons sep a (l : list string) :
  l <> [] -> String.concat sep (a :: l) = a ++ sep ++ String.concat sep l.
Proof. by destruct l. Qed.

Lemma join_removelast_last sep (pieces : list string) d :
  (2 <= List.length pieces)%nat ->
  String.concat sep (removelast pieces) ++ sep ++ List.last pieces d
  = String.concat sep pieces.
Proof.
  induction pieces as [|a l IH]; [simpl; lia|].
  intros Hlen. destruct l as [|b l]; [simpl in Hlen; lia|].
  destruct l as [|c l]; [reflexivity|].
  assert (IH' := IH ltac:(simpl; lia)).
  change (removelast (a :: b :: c :: l)) with (a :: b :: removelast (c :: l)).
  change (List.last (a :: b :: c :: l) d) with (List.last (b :: c :: l) d).
  change (removelast (b :: c :: l)) with (b :: removelast (c :: l)) in IH'.
  rewrite (concat_cons sep a (b :: removelast (c :: l))) by done.
  rewrite (concat_cons sep a (b :: c :: l)) by done.
  rewrite !append_assoc. by rewrite IH'.
Qed.

Section MoreOnKeywords.

Context `{Collaborators}.

(** X7.  What is put in front of each completion.  When the query has a
    space, the prefix is the query up to and including its last space,
    so that prefix and search token make up the query.  When it has
    none, the whole query is the token and the prefix is a single space:
    every completion then starts with a space. *)
Theorem completion_prefix w pk q :
  let strings := py_split " " q in
  let prefix := py_join " " (removelast strings) ++ " " in
  let keyword := List.last strings EmptyString in
  (contains_char " " q = true -> prefix ++ keyword = q) /\
  (contains_char " " q = false ->
   keyword = q /\ prefix = " " /\
   complete_keywords w pk q
   = (fun x => " " ++ pcd_level x) <$> take 20 (keyword_query w pk q)).
Proof.
  intros strings prefix keyword. subst prefix keyword strings. split.
  - intros Hspace. rewrite append_assoc. unfold py_join.
    rewrite join_removelast_last; [apply (py_join_split " " q)|].
    rewrite (proj1 (py_split_count " " q)).
    destruct (count_char " " q) eqn:Hcount; [|lia].
    apply contains_char_count in Hcount. congruence.
  - intros Hnone. apply contains_char_count in Hnone.
    unfold complete_keywords.
    rewrite (proj2 (py_split_count " " q) Hnone). done.
Qed.

Section WithOrder.

Hypothesis database_orders : orders_by_count_desc order_by_count_desc.

(** X8.  How many completions come back: as many as there are matching
    rows, up to 20.  With at most 20 matching rows none is lost: every
    stored word of the dataset that starts with the token is returned. *)
Theorem completions_count w pk q :
  let strings := py_split " " q in
  let prefix := py_join " " (removelast strings) ++ " " in
  let keyword := List.last strings EmptyString in
  let matching := List.filter (keyword_row pk keyword) (w_precalc w) in
  List.length (complete_keywords w pk q) = Nat.min 20 (List.length matching) /\
  ((List.length matching <= 20)%nat ->
   forall r, r ∈ w_precalc w -> keyword_row pk keyword r = true ->
             prefix ++ pcd_level r ∈ complete_keywords w pk q).
Proof.
  intros strings prefix keyword matching.
  destruct (database_orders matching) as [Hperm _].
  unfold complete_keywords, keyword_query. fold strings keyword matching. split.
  - rewrite length_fmap, length_take. by rewrite <- (Permutation_length Hperm).
  - intros Hfew r Hin Hrow.
    rewrite take_ge by (rewrite <- (Permutation_length Hperm); lia).
    apply list_elem_of_fmap. exists r. split; [done|].
    rewrite <- Hperm. apply list_elem_of_In, filter_In.
    split; [by apply list_elem_of_In|done].
Qed.

End WithOrder.

(** X9.  [get] logs before it looks at its parameters: unless
    [add_history] itself fails, the world after any call is the world
    before plus the one history row of type ['auto-complete:get-list'],
    also when the call is answered with 400 or ends in an exception. *)
Theorem get_logs_every_request u query_params w :
  (get u query_params w).2
  = if owner_missing w u then w
    else saved (history_row w u "auto-complete:get-list" (PyStr <$> query_params)) w.
Proof.
  unfold get.
  pose proof (add_history_run u "auto-complete:get-list" (PyStr <$> query_params) w)
    as Hadd.
  unfold mbind, mret, M_bind, M_ret, lift, get_world in *. rewrite Hadd.
  destruct (owner_missing w u); [done|].
  destruct (truthy _); [|done].
  destruct (query_params !! "q");
    destruct (int_of_str _); simpl; try done;
    destruct (keyword_serializer_data _) as [output|]; simpl; try done.
  by destruct (wrap_texts output).
Qed.

(** X10.  The parameter errors of [get].  Without a [dataset], or with
    an empty one, the answer is 400 with no body.  With a [dataset] that
    is not an integer the call ends with [ValueError], whether a [q] is
    given or not. *)
Theorem get_parameter_errors u query_params w :
  owner_missing w u = false ->
  (query_params !! "dataset" = None \/ query_params !! "dataset" = Some EmptyString ->
   (get u query_params w).1 = Ok (mkResponse HTTP_400_BAD_REQUEST None)) /\
  (forall dataset_id,
      query_params !! "dataset" = Some dataset_id -> dataset_id <> EmptyString ->
      int_of_str dataset_id = Raise ValueError ->
      (get u query_params w).1 = Raise ValueError).
Proof.
  intros Hu. unfold get.
  pose proof (add_history_run u "auto-complete:get-list" (PyStr <$> query_params) w)
    as Hadd.
  rewrite Hu in Hadd.
  unfold mbind, mret, M_bind, M_ret, lift, get_world in *. rewrite Hadd. split.
  - by intros [-> | ->].
  - intros dataset_id -> Hne Hint. simpl.
    destruct (String.eqb_spec dataset_id "") as [->|_]; [done|]. simpl.
    rewrite Hint. by destruct (query_params !! "q").
Qed.

(** X11.  The keywords offered when no [q] is given: at most 20 texts,
    no text twice, each the text of a tweet word of the dataset. *)
Theorem tweetword_texts_distinct w pk :
  (List.length (tweetword_texts w pk) <= 20)%nat /\
  NoDup (tweetword_texts w pk) /\
  (forall t, t ∈ tweetword_texts w pk ->
             exists row, row ∈ w_tweetwords w /\ tw_dataset_id row = pk /\ tw_text row = t).
Proof.
  unfold tweetword_texts. split; [rewrite length_take; lia|]. split.
  - eapply sublist_NoDup; [apply NoDup_remove_dups|apply sublist_take].
  - intros t Ht. apply elem_of_take in Ht as (i & Hi & _).
    apply list_elem_of_lookup_2, elem_of_remove_dups, list_elem_of_fmap in Hi
      as (row & -> & Hrow).
    apply list_elem_of_In, filter_In in Hrow as [Hrow Hpk].
    exists row. split; [by apply list_elem_of_In|]. split; [by apply Z.eqb_eq|done].
Qed.

End MoreOnKeywords.

(** * The message views *)

Lemma comprehension_ok {A B} (f : A -> Res B) xs ys :
  comprehension f xs = Ok ys <-> Forall2 (fun x y => f x = Ok y) xs ys.
Proof.
  revert ys. induction xs as [|x xs IH]; intros ys; simpl.
  - split; [intros [= <-]; constructor|by inversion 1].
  - unres. destruct (f x) as [y|e] eqn:Hx.
    + destruct (comprehension f xs) as [ys'|e] eqn:Hxs.
      * split.
        -- intros [= <-]. constructor; [done|]. by apply IH.
        -- inversion 1 as [|? y' ? ys'' Hy Hys]; subst.
           apply IH in Hys. congruence.
      * split; [discriminate|].
        inversion 1 as [|? y' ? ys'' Hy Hys]; subst. apply IH in Hys. discriminate.
    + split; [discriminate|]. inversion 1; congruence.
Qed.

Lemma comprehension_raise {A B} (f : A -> Res B) xs e :
  comprehension f xs = Raise e <->
  exists before x after,
    xs = (before ++ x :: after)%list /\
    Forall (fun x => exists y, f x = Ok y) before /\
    f x = Raise e.
Proof.
  induction xs as [|x xs IH]; simpl.
  - split; [discriminate|]. intros (before & x & after & Hxs & _).
    by destruct before.
  - unres. split.
    + destruct (f x) as [y|e'] eqn:Hx.
      * destruct (comprehension f xs) as [ys|e'] eqn:Hxs; [discriminate|].
        intros [= ->].
        destruct (proj1 IH eq_refl) as (before & x' & after & -> & Hbefore & Hx').
        exists (x :: before), x', after. split; [done|].
        split; [|done]. constructor; eauto.
      * intros [= ->]. exists [], x, xs. split; [done|]. split; [constructor|done].
    + intros (before & x' & after & Heq & Hbefore & Hx').
      destruct before as [|b before]; simpl in Heq; injection Heq as <- ->.
      * by rewrite Hx'.
      * apply Forall_cons in Hbefore as [[y Hy] Hbefore]. rewrite Hy.
        assert (Hxs : comprehension f (before ++ x' :: after) = Raise e)
          by (apply IH; eauto 6).
        by rewrite Hxs.
Qed.

Section MessageViews.

Context `{Collaborators} `{MessageCollaborators}.

(** X12.  In [ExampleMessagesView] a focus is one more filter: the
    lookup gets the filters followed by the focus, so a request with the
    focus moved to the end of its filters fetches the same messages. *)
Theorem focus_joins_filters data fs fc :
  dict_get data "filters" (PyList []) = PyList fs ->
  dict_get data "focus" (PyList []) = PyList fc ->
  ExampleMessagesView.example_messages
    (<["filters" := PyList (fs ++ fc)]> (delete "focus" data))
  = ExampleMessagesView.example_messages data.
Proof.
  intros Hfs Hfc. unfold ExampleMessagesView.example_messages.
  rewrite Hfs, Hfc. unfold getitem, dict_get_none, dict_get.
  rewrite lookup_insert_eq.
  rewrite !lookup_insert_ne by done.
  rewrite lookup_delete_eq. rewrite !lookup_delete_ne by done.
  simpl. by rewrite app_nil_r.
Qed.

(** Which lookup [ExampleMessagesView] uses.  Only an absent or null
    [groups] gives the plain lookup; any other value, an empty list
    too, is handed to the lookup by groups.  Both get the filters
    followed by the focus, and the [excludes]. *)
Lemma example_messages_dispatch data ds fs fc :
  data !! "dataset" = Some (PyDataset ds) ->
  dict_get data "filters" (PyList []) = PyList fs ->
  dict_get data "focus" (PyList []) = PyList fc ->
  ExampleMessagesView.example_messages data
  = match data !! "groups" with
    | None | Some PyNone =>
        get_example_messages ds (PyList (fs ++ fc)) (dict_get data "excludes" (PyList []))
    | Some groups =>
        get_example_messages_by_groups ds groups (PyList (fs ++ fc))
                                       (dict_get data "excludes" (PyList []))
    end.
Proof.
  intros Hds Hfs Hfc. unfold ExampleMessagesView.example_messages, getitem.
  rewrite Hds, Hfs, Hfc. unfold dict_get_none, dict_get. unres.
  destruct (data !! "groups") as [[]|]; done.
Qed.

(** X13.  A null [filters] or a null [focus] is not read as an empty
    list: adding the two fails, and the request ends with [TypeError]
    without a lookup. *)
Theorem example_messages_null_filters data ds :
  data !! "dataset" = Some (PyDataset ds) ->
  data !! "filters" = Some PyNone \/ data !! "focus" = Some PyNone ->
  ExampleMessagesView.example_messages data = Raise TypeError.
Proof.
  intros Hds Hnull. unfold ExampleMessagesView.example_messages, getitem.
  rewrite Hds. unfold dict_get_none, dict_get. unres.
  assert (Hadd : py_add (default (PyList []) (data !! "filters"))
                        (default (PyList []) (data !! "focus")) = Raise TypeError).
  { destruct Hnull as [-> | ->]; simpl; [done|].
    by destruct (default (PyList []) (data !! "filters")) as [| [] | | | | | |]. }
  rewrite Hadd. by destruct (is_None _).
Qed.

(** X14.  [ExampleMessagesView.post] and [KeywordMessagesView.post] log
    first: unless [add_history] fails, the world after a call is the
    world before plus one history row, of type ['example-messages'] and
    ['search'], whatever comes of the call; and a body the serializer
    rejects is answered with 400 and the serializer's errors. *)
Theorem message_views_log_first req w :
  owner_missing w (req_user req) = false ->
  (ExampleMessagesView.post req w).2
  = saved (history_row w (req_user req) "example-messages" (req_data req)) w /\
  (KeywordMessagesView.post req w).2
  = saved (history_row w (req_user req) "search" (req_data req)) w /\
  (forall errors, example_is_valid (req_data req) = Invalid errors ->
                  (ExampleMessagesView.post req w).1
                  = Ok (mkResponse HTTP_400_BAD_REQUEST (Some errors))) /\
  (forall errors, search_is_valid (req_data req) = Invalid errors ->
                  (KeywordMessagesView.post req w).1
                  = Ok (mkResponse HTTP_400_BAD_REQUEST (Some errors))).
Proof.
  intros Hu. unfold ExampleMessagesView.post, KeywordMessagesView.post.
  pose proof (add_history_run (req_user req) "example-messages" (req_data req) w) as Hex.
  pose proof (add_history_run (req_user req) "search" (req_data req) w) as Hse.
  rewrite Hu in Hex, Hse.
  unfold mbind, mret, M_bind, M_ret, lift in *. rewrite Hex, Hse.
  repeat split.
  - destruct (example_is_valid _) as [data|]; [|done].
    destruct (ExampleMessagesView.example_messages data); [|done]. simpl.
    by destruct (example_serializer_data _ _).
  - destruct (search_is_valid _) as [data|]; [|done].
    destruct (KeywordMessagesView.messages data); [|done]. simpl.
    by destruct (search_serializer_data _ _).
  - by intros errors ->.
  - by intros errors ->.
Qed.

(** X15.  The message types of a search.  With a list of names, every
    name is looked up, in order: the result has one type per name, and
    the first name whose lookup fails ends the request with that
    failure.  An empty list needs no lookup. *)
Theorem include_types_outcome names :
  (forall types,
      KeywordMessagesView.include_types (PyList names) = Ok types <->
      Forall2 (fun name type => message_type_get name = Ok type) names types) /\
  (forall e,
      KeywordMessagesView.include_types (PyList names) = Raise e <->
      exists before name after,
        names = (before ++ name :: after)%list /\
        Forall (fun name => exists type, message_type_get name = Ok type) before /\
        message_type_get name = Raise e).
Proof.
  unfold KeywordMessagesView.include_types, py_iter. unres.
  destruct names as [|name names].
  - simpl. split.
    + intros types. split; [intros [= <-]; constructor|by inversion 1].
    + intros e. split; [discriminate|].
      intros (before & x & after & Heq & _). by destruct before.
  - change (0 <? List.length (name :: names))%nat with true. cbv iota.
    split; [intros types; apply comprehension_ok|intros e; apply comprehension_raise].
Qed.

(** X16.  In a search an absent, a null and an empty [keywords] are one
    and the same, and so are an absent, a null and an empty
    [types_list]. *)
Theorem search_defaults k data :
  k = "keywords" \/ k = "types_list" ->
  let empty := if String.eqb k "keywords" then PyStr "" else PyList [] in
  KeywordMessagesView.messages (<[k := PyNone]> data)
  = KeywordMessagesView.messages (delete k data) /\
  KeywordMessagesView.messages (<[k := empty]> data)
  = KeywordMessagesView.messages (delete k data).
Proof.
  intros Hk empty. subst empty. unfold KeywordMessagesView.messages, getitem,
    dict_get_none, dict_get.
  destruct Hk as [-> | ->]; simpl;
    rewrite !lookup_insert_eq, !lookup_delete_eq;
    rewrite !lookup_insert_ne, !lookup_delete_ne by done; done.
Qed.

(** X17.  [DatasetView.get] fails in one way only: with [ValueError],
    when an [id] is given that is not an integer.  Everything that goes
    wrong while the dataset is fetched and serialized is answered with
    400. *)
Theorem dataset_get_raises datasets query_params e :
  DatasetView.get datasets query_params = Raise e ->
  e = ValueError /\
  exists dataset_id,
    query_params !! "id" = Some dataset_id /\ dataset_id <> EmptyString /\
    int_of_str dataset_id = Raise ValueError.
Proof.
  unfold DatasetView.get.
  destruct (query_params !! "id") as [dataset_id|] eqn:Hid; simpl; [|discriminate].
  destruct (String.eqb_spec dataset_id "") as [->|Hne]; simpl; [discriminate|].
  unres. destruct (int_of_str dataset_id) as [pk|e'] eqn:Hint.
  - by destruct (DatasetView.found datasets pk).
  - intros [= ->].
    pose proof (int_of_str_raises _ _ Hint) as ->. eauto.
Qed.

(** X18.  [DatasetView.get] answers 200 exactly for an [id] that names
    one stored dataset whose serialization succeeds, and the body is
    that serialization.  An [id] that names no dataset is answered with
    400. *)
Theorem dataset_get_found datasets query_params :
  (forall response,
      DatasetView.get datasets query_params = Ok response ->
      plain_status response = HTTP_200_OK ->
      exists dataset_id pk dataset,
        query_params !! "id" = Some dataset_id /\
        int_of_str dataset_id = Ok pk /\
        dataset ∈ datasets /\ dataset_pk dataset = pk /\
        dataset_serializer_data dataset = Ok (plain_body response)) /\
  (forall dataset_id pk,
      query_params !! "id" = Some dataset_id -> dataset_id <> EmptyString ->
      int_of_str dataset_id = Ok pk ->
      (forall dataset, dataset ∈ datasets -> dataset_pk dataset <> pk) ->
      DatasetView.get datasets query_params
      = Ok (mkPlainResponse HTTP_400_BAD_REQUEST (PyStr "Dataset not exist"))).
Proof.
  unfold DatasetView.get, DatasetView.found, dataset_objects_get. split.
  - intros response.
    destruct (query_params !! "id") as [dataset_id|] eqn:Hid; simpl;
      [|by intros [= <-]].
    destruct (String.eqb_spec dataset_id "") as [->|Hne]; simpl; [by intros [= <-]|].
    unres. destruct (int_of_str dataset_id) as [pk|] eqn:Hint; [|discriminate].
    destruct (List.filter _ datasets) as [|d [|d' rest]] eqn:Hfilter;
      try by intros [= <-].
    destruct (dataset_serializer_data d) as [output|] eqn:Hout; [|by intros [= <-]].
    intros [= <-] _. exists dataset_id, pk, d.
    assert (Hd : In d (List.filter (fun d => (dataset_pk d =? pk)%Z) datasets))
      by (rewrite Hfilter; by left).
    apply filter_In in Hd as [Hd Hpk].
    split; [done|]. split; [done|]. split; [by apply list_elem_of_In|].
    split; [by apply Z.eqb_eq|done].
  - intros dataset_id pk -> Hne Hint Hnone. simpl.
    destruct (String.eqb_spec dataset_id "") as [->|_]; [done|]. simpl.
    rewrite Hint. unres.
    destruct (List.filter _ datasets) as [|d rest] eqn:Hfilter; [done|].
    assert (Hd : In d (List.filter (fun d => (dataset_pk d =? pk)%Z) datasets))
      by (rewrite Hfilter; by left).
    apply filter_In in Hd as [Hd Hpk].
    apply Z.eqb_eq in Hpk. apply list_elem_of_In in Hd. by destruct (Hnone d Hd).
Qed.

End MessageViews.

(** * The group views *)

Lemma insert_group_perm g rows : Permutation (g :: rows) (insert_group g rows).
Proof.
  induction rows as [|x rest IH]; simpl; [done|].
  destruct (_ || _); [|done]. rewrite <- IH. apply perm_swap.
Qed.

Lemma insert_group_sorted g rows :
  StronglySorted group_before rows -> StronglySorted group_before (insert_group g rows).
Proof.
  induction rows as [|x rest IH]; simpl; intros Hsorted.
  - by repeat constructor.
  - apply StronglySorted_inv in Hsorted as [Hrest Hx].
    destruct ((group_order x <? group_order g)%Z
              || ((group_order x =? group_order g)%Z
                  && (group_created_at x <? group_created_at g)%Z)) eqn:Hcmp.
    + constructor; [by apply IH|].
      rewrite <- (insert_group_perm g rest). constructor; [|done].
      unfold group_before. apply orb_true_iff in Hcmp as [Hlt|Heq].
      * apply Z.ltb_lt in Hlt. lia.
      * apply andb_true_iff in Heq as [Heq Hlt].
        apply Z.eqb_eq in Heq. apply Z.ltb_lt in Hlt. lia.
    + apply orb_false_iff in Hcmp as [Hlt Heq]. apply Z.ltb_ge in Hlt.
      assert (Hgx : group_before g x).
      { unfold group_before. apply andb_false_iff in Heq as [Heq|Heq].
        - apply Z.eqb_neq in Heq. lia.
        - apply Z.ltb_ge in Heq. lia. }
      constructor; [by constructor|]. constructor; [done|].
      eapply Forall_impl; [exact Hx|]. unfold group_before in *. intros; lia.
Qed.

(** The test double's order of groups is one a database may give. *)
Lemma sort_groups_orders : orders_groups sort_groups.
Proof.
  intros rows. unfold sort_groups. split.
  - induction rows as [|g rows IH]; simpl; [done|].
    rewrite <- insert_group_perm. by constructor.
  - induction rows as [|g rows IH]; simpl; [constructor|].
    by apply insert_group_sorted.
Qed.

Section GroupViews.

Context `{Collaborators} `{MessageCollaborators}.

Ltac unMG :=
  unfold mbind, mret, MG_bind, MG_ret, lift_res, lift_world, get_group_world in *.

Lemma lift_add_history u type contents gw :
  lift_world (add_history u type contents) gw
  = if owner_missing (gw_world gw) u then (Raise DoesNotExist, gw)
    else (Ok tt, mkGroupWorld (saved (history_row (gw_world gw) u type contents)
                                     (gw_world gw))
                              (gw_groups gw)).
Proof.
  unfold lift_world. rewrite add_history_run.
  destruct (owner_missing _ _); [|done]. by destruct gw.
Qed.

Lemma delete_run req query_params gw id pk g :
  owner_missing (gw_world gw) (req_user req) = false ->
  query_params !! "id" = Some id -> id <> EmptyString ->
  int_of_str id = Ok pk ->
  List.filter (fun row => (group_id row =? pk)%Z) (gw_groups gw) = [g] ->
  let run := GroupView.delete req query_params gw in
  run.1 = Ok (Some (mkPlainResponse HTTP_204_NO_CONTENT PyNone)) /\
  gw_groups run.2
  = ((fun row => if (group_id row =? pk)%Z then mark_deleted row else row)
       <$> gw_groups gw) /\
  List.length (gw_groups run.2) = List.length (gw_groups gw).
Proof.
  intros Hu Hid Hne Hint Hfilter run. subst run.
  assert (Hrun : GroupView.delete req query_params gw
                 = (Ok (Some (mkPlainResponse HTTP_204_NO_CONTENT PyNone)),
                    mkGroupWorld
                      (saved (history_row (gw_world gw) (req_user req) "group:delete"
                                          (PyStr <$> query_params)) (gw_world gw))
                      ((fun row => if (group_id row =? group_id (mark_deleted g))%Z
                                   then mark_deleted g else row) <$> gw_groups gw))).
  { unfold GroupView.delete.
    pose proof (lift_add_history (req_user req) "group:delete"
                                 (PyStr <$> query_params) gw) as Hadd.
    rewrite Hu in Hadd. unMG. rewrite Hadd, Hid. simpl.
    destruct (String.eqb_spec id "") as [->|_]; [done|]. simpl.
    rewrite Hint. unfold group_objects_get. simpl. by rewrite Hfilter. }
  rewrite Hrun. cbn [fst snd gw_groups]. split; [done|].
  assert (Hg : In g (List.filter (fun row => (group_id row =? pk)%Z) (gw_groups gw)))
    by (rewrite Hfilter; by left).
  apply filter_In in Hg as [_ Hpk]. apply Z.eqb_eq in Hpk.
  split; [|by rewrite length_fmap].
  apply list_fmap_ext. intros i row Hrow. simpl. rewrite Hpk.
  destruct (group_id row =? pk)%Z eqn:Hrowpk; [|done].
  assert (Hin : In row (List.filter (fun row => (group_id row =? pk)%Z) (gw_groups gw))).
  { apply filter_In. split; [|done].
    by apply list_elem_of_In, list_elem_of_lookup_2 with i. }
  rewrite Hfilter in Hin. destruct Hin as [->|[]]. done.
Qed.

(** X19.  [delete] does not remove a group: given the id of a stored
    group it answers 204 and the table keeps every row, the rows of
    that id now marked as deleted and all other rows and all other
    columns as they were. *)
Theorem delete_marks_group req query_params gw id pk g :
  owner_missing (gw_world gw) (req_user req) = false ->
  query_params !! "id" = Some id -> id <> EmptyString ->
  int_of_str id = Ok pk ->
  List.filter (fun row => (group_id row =? pk)%Z) (gw_groups gw) = [g] ->
  let run := GroupView.delete req query_params gw in
  run.1 = Ok (Some (mkPlainResponse HTTP_204_NO_CONTENT PyNone)) /\
  gw_groups run.2
  = ((fun row => if (group_id row =? pk)%Z then mark_deleted row else row)
       <$> gw_groups gw) /\
  List.length (gw_groups run.2) = List.length (gw_groups gw).
Proof.
  intros Hu Hid Hne Hint Hfilter.
  exact (delete_run req query_params gw id pk g Hu Hid Hne Hint Hfilter).
Qed.

(** X20.  The failures of [delete] leave the groups alone.  Without an
    [id] the view returns nothing at all; an [id] that is not an
    integer ends it with [ValueError], one that names no group with
    [DoesNotExist].  The history row of type ['group:delete'] is written
    in each of these cases. *)
Theorem delete_failures req query_params gw :
  owner_missing (gw_world gw) (req_user req) = false ->
  let run := GroupView.delete req query_params gw in
  let logged :=
    mkGroupWorld (saved (history_row (gw_world gw) (req_user req) "group:delete"
                                     (PyStr <$> query_params)) (gw_world gw))
                 (gw_groups gw) in
  (query_params !! "id" = None \/ query_params !! "id" = Some EmptyString ->
   run = (Ok None, logged)) /\
  (forall id, query_params !! "id" = Some id -> id <> EmptyString ->
              int_of_str id = Raise ValueError -> run = (Raise ValueError, logged)) /\
  (forall id pk, query_params !! "id" = Some id -> id <> EmptyString ->
                 int_of_str id = Ok pk ->
                 (forall row, row ∈ gw_groups gw -> group_id row <> pk) ->
                 run = (Raise DoesNotExist, logged)).
Proof.
  intros Hu run logged. subst run logged. unfold GroupView.delete.
  pose proof (lift_add_history (req_user req) "group:delete"
                               (PyStr <$> query_params) gw) as Hadd.
  rewrite Hu in Hadd. unMG. rewrite Hadd. split; [|split].
  - by intros [-> | ->].
  - intros id -> Hne Hint. simpl.
    destruct (String.eqb_spec id "") as [->|_]; [done|]. simpl. by rewrite Hint.
  - intros id pk -> Hne Hint Hnone. simpl.
    destruct (String.eqb_spec id "") as [->|_]; [done|]. simpl.
    rewrite Hint. unfold group_objects_get. simpl.
    destruct (List.filter _ (gw_groups gw)) as [|row rest] eqn:Hfilter; [done|].
    assert (Hin : In row (List.filter (fun row => (group_id row =? pk)%Z) (gw_groups gw)))
      by (rewrite Hfilter; by left).
    apply filter_In in Hin as [Hin Hpk]. apply Z.eqb_eq in Hpk.
    apply list_elem_of_In in Hin. by destruct (Hnone row Hin).
Qed.

Section WithGroupOrder.

Hypothesis database_orders_groups : orders_groups order_groups.

Lemma listed_groups w u dataset_id groups l :
  GroupView.listed w u dataset_id groups = Ok l ->
  StronglySorted group_before l /\
  forall g, g ∈ l <->
            g ∈ groups /\ group_dataset_id g = dataset_id /\ group_deleted g = false /\
            match user_id u with
            | Some uid => count_users 1 w = 0%nat \/ group_owner g = Some uid
            | None => True
            end.
Proof.
  unfold GroupView.listed. unres.
  set (mine := List.filter _ groups).
  assert (Hmine : forall g, In g mine <->
                            g ∈ groups /\ group_dataset_id g = dataset_id /\
                            group_deleted g = false).
  { intros g. subst mine. rewrite filter_In, andb_true_iff, Z.eqb_eq, negb_true_iff.
    rewrite <- list_elem_of_In. tauto. }
  destruct (user_id u) as [uid|].
  - destruct (count_users 1 w =? 0)%nat eqn:Hone; simpl.
    + apply Nat.eqb_eq in Hone. intros [= <-].
      destruct (database_orders_groups mine) as [Hperm Hsorted].
      split; [done|]. intros g. rewrite <- Hperm, list_elem_of_In, Hmine. tauto.
    + apply Nat.eqb_neq in Hone.
      destruct (count_users uid w); [discriminate|]. intros [= <-].
      destruct (database_orders_groups
                  (List.filter (fun g => match group_owner g with
                                         | Some o => (o =? uid)%Z
                                         | None => false
                                         end) mine)) as [Hperm Hsorted].
      split; [done|]. intros g.
      rewrite <- Hperm, list_elem_of_In, filter_In, Hmine.
      destruct (group_owner g) as [o|].
      * rewrite Z.eqb_eq. split.
        -- intros [? ->]. tauto.
        -- intros (? & ? & ? & [?|[= ->]]); [done|tauto].
      * split; [intros [_ ?]; discriminate|].
        intros (? & ? & ? & [?|?]); [done|discriminate].
  - intros [= <-].
    destruct (database_orders_groups mine) as [Hperm Hsorted].
    split; [done|]. intros g. rewrite <- Hperm, list_elem_of_In, Hmine. tauto.
Qed.

(** X21.  The list of groups of a dataset.  Once the history row is
    written the listing cannot fail on the owner; the response is the
    serialization of the groups of that dataset that are not deleted,
    and that the acting user owns, unless the user is anonymous or no
    user with id 1 exists; they come by [order], then by [created_at]. *)
Theorem get_lists_groups req query_params gw dataset pk :
  owner_missing (gw_world gw) (req_user req) = false ->
  query_params !! "dataset" = Some dataset -> dataset <> EmptyString ->
  int_of_str dataset = Ok pk ->
  exists l,
    (GroupView.get req query_params gw).1
    = mkPlainResponse HTTP_200_OK <$> group_list_data l /\
    StronglySorted group_before l /\
    forall g, g ∈ l <->
              g ∈ gw_groups gw /\ group_dataset_id g = pk /\ group_deleted g = false /\
              match user_id (req_user req) with
              | Some uid => count_users 1 (gw_world gw) = 0%nat \/ group_owner g = Some uid
              | None => True
              end.
Proof.
  intros Hu Hds Hne Hint.
  assert (Hlisted : exists l, GroupView.listed (gw_world gw) (req_user req) pk
                                               (gw_groups gw) = Ok l).
  { unfold GroupView.listed. unres. revert Hu. unfold owner_missing.
    destruct (user_id (req_user req)) as [uid|]; [|eauto].
    destruct (count_users 1 (gw_world gw) =? 0)%nat; simpl; [eauto|].
    destruct (count_users uid (gw_world gw)); [discriminate|eauto]. }
  destruct Hlisted as [l Hl]. exists l.
  split; [|by apply listed_groups in Hl].
  unfold GroupView.get.
  pose proof (lift_add_history (req_user req) "group:get-list"
                               (PyStr <$> query_params) gw) as Hadd.
  rewrite Hu in Hadd. unMG. rewrite Hds. simpl.
  destruct (String.eqb_spec dataset "") as [->|_]; [done|]. simpl.
  rewrite Hadd, Hint. simpl.
  change (count_users ?i (saved ?h ?w)) with (count_users i w) in *.
  assert (Hsame : GroupView.listed
                    (saved (history_row (gw_world gw) (req_user req) "group:get-list"
                                        (PyStr <$> query_params)) (gw_world gw))
                    (req_user req) pk (gw_groups gw)
                  = GroupView.listed (gw_world gw) (req_user req) pk (gw_groups gw))
    by reflexivity.
  rewrite Hsame, Hl. unfold fmap, Res_fmap. by destruct (group_list_data l).
Qed.

(** X22.  A group that was deleted is not listed any more, for any user
    and any dataset. *)
Theorem deleted_group_is_not_listed req query_params gw id pk g w' u dataset_id l :
  owner_missing (gw_world gw) (req_user req) = false ->
  query_params !! "id" = Some id -> id <> EmptyString ->
  int_of_str id = Ok pk ->
  List.filter (fun row => (group_id row =? pk)%Z) (gw_groups gw) = [g] ->
  GroupView.listed w' u dataset_id
                   (gw_groups (GroupView.delete req query_params gw).2) = Ok l ->
  forall g', g' ∈ l -> group_id g' <> pk.
Proof.
  intros Hu Hid Hne Hint Hfilter Hl g' Hg' Hpk.
  destruct (delete_run req query_params gw id pk g Hu Hid Hne Hint Hfilter)
    as (_ & Hgroups & _).
  rewrite Hgroups in Hl.
  apply listed_groups in Hl as [_ Hl]. apply Hl in Hg' as (Hin & _ & Hdeleted & _).
  apply list_elem_of_fmap in Hin as (row & -> & _).
  destruct (group_id row =? pk)%Z eqn:Hrow; [discriminate|].
  apply Z.eqb_neq in Hrow. done.
Qed.

End WithGroupOrder.

End GroupViews.

(** * The further properties at work, on the test doubles *)

#[local] Existing Instance echo_messages.

(** X1 at work: the anonymous user's row has no owner. *)
Lemma add_history_outcome_witness :
  owner_missing empty_world anonymous = false /\
  exists row,
    add_history anonymous "search" ∅ empty_world = (Ok tt, saved row empty_world) /\
    ah_owner row = None.
Proof.
  assert (Hu : owner_missing empty_world anonymous = false) by reflexivity.
  split; [exact Hu|].
  destruct (proj2 (add_history_outcome anonymous "search" ∅ empty_world) Hu)
    as (row & Hrun & _ & _ & _ & _ & Howner).
  exists row. split; [exact Hrun|]. apply Howner. left. reflexivity.
Defined.

(** X3 at work: validated data with nothing in it. *)
Lemma post_missing_key_witness :
  user_known empty_world anonymous /\
  @is_valid lenient ∅ = Valid ∅ /\
  (@post lenient (mkRequest anonymous ∅) empty_world).1 = Raise (KeyError "dataset").
Proof.
  assert (Hu : user_known empty_world anonymous) by exact I.
  assert (Hv : @is_valid lenient (req_data (mkRequest anonymous ∅)) = Valid ∅)
    by reflexivity.
  split; [exact Hu|]. split; [exact Hv|].
  exact (proj1 (@post_missing_key lenient (mkRequest anonymous ∅) empty_world ∅
                  Hu Hv (or_introl eq_refl))).
Defined.

(** X4 at work: a null [groups]. *)
Lemma post_unsized_groups_witness :
  let data := <["groups" := PyNone]> hashtags_request in
  py_len (dict_get data "groups" (PyList [])) = Raise TypeError /\
  (post (mkRequest anonymous data) empty_world).1 = Raise TypeError.
Proof.
  intros data.
  assert (Hlen : py_len (dict_get data "groups" (PyList [])) = Raise TypeError)
    by reflexivity.
  split; [exact Hlen|].
  exact (proj1 (post_unsized_groups (mkRequest anonymous data) empty_world data
                  (PyDataset (mkDataset 1)) (PyList [PyDimension hashtags])
                  I eq_refl eq_refl eq_refl Hlen)).
Defined.

(** X5 at work: the groups of a request over time. *)
Lemma generate_groups_never_empty_witness :
  let data := <["groups" := PyList [PyInt 7]]> time_request in
  let call := EvGenerate (PyDataset (mkDataset 1)) (PyList []) (PyList []) 100 None
                         PyNone (PyList [PyInt 7]) in
  call ∈ events_since empty_world (post_valid data empty_world).2 /\
  (PyList [PyInt 7] = PyNone \/ exists n, py_len (PyList [PyInt 7]) = Ok (S n)).
Proof.
  intros data call.
  assert (Hin : call ∈ events_since empty_world (post_valid data empty_world).2).
  { vm_compute. do 2 apply list_elem_of_further. apply list_elem_of_here. }
  split; [exact Hin|].
  exact (generate_groups_never_empty data empty_world _ _ _ _ _ _ _ Hin).
Defined.

(** X6 at work: the calls of a request over time with a mode. *)
Lemma general_path_calls_witness :
  plan time_request = Ok GeneralPath /\
  exists x,
    (post_result time_request empty_world).1 = Ok x /\
    events_since empty_world (post_result time_request empty_world).2
    = [EvDataTable [PyDimension time]; EvSetMode (PyStr "cumulative");
       EvGenerate (PyDataset (mkDataset 1)) (PyList []) (PyList []) 100 None
                  PyNone PyNone].
Proof.
  assert (Hplan : plan time_request = Ok GeneralPath) by reflexivity.
  split; [exact Hplan|]. eexists. split; [vm_compute; reflexivity|].
  edestruct (general_path_calls time_request empty_world) as
      (dataset & dimensions & args & groups & page_size & page
       & Hds & Hdims & Hargs & Hg & Hps & Hpg & Hevents);
    [exact Hplan|vm_compute; reflexivity|].
  rewrite Hevents.
  vm_compute in Hds, Hdims, Hg, Hps, Hpg.
  injection Hds as <-. injection Hdims as <-. injection Hg as <-.
  injection Hps as <-. injection Hpg as <-.
  vm_compute in Hargs. injection Hargs as <-. reflexivity.
Defined.

(** A query without a space. *)
Lemma py_split_length_witness :
  count_char " " "mudslide" = 0%nat /\ py_split " " "mudslide" = ["mudslide"].
Proof.
  assert (Hcount : count_char " " "mudslide" = 0%nat) by reflexivity.
  split; [exact Hcount|exact (proj2 (py_split_length " " "mudslide") Hcount)].
Defined.

(** Three pieces, one of them empty. *)
Lemma py_split_join_witness :
  ["mud"; ""; "oso"] <> [] /\
  Forall (fun piece => contains_char " " piece = false) ["mud"; ""; "oso"] /\
  py_split " " (py_join " " ["mud"; ""; "oso"]) = ["mud"; ""; "oso"].
Proof.
  assert (Hne : ["mud"; ""; "oso"] <> []) by discriminate.
  assert (Hpieces : Forall (fun piece => contains_char " " piece = false)
                           ["mud"; ""; "oso"])
    by (repeat constructor).
  split; [exact Hne|]. split; [exact Hpieces|].
  exact (py_split_join " " ["mud"; ""; "oso"] Hne Hpieces).
Defined.

(** X7 at work: a query of two words. *)
Lemma completion_prefix_witness :
  contains_char " " "oso mud" = true /\
  (py_join " " (removelast (py_split " " "oso mud")) ++ " ")
    ++ List.last (py_split " " "oso mud") EmptyString = "oso mud".
Proof.
  assert (Hspace : contains_char " " "oso mud" = true) by reflexivity.
  split; [exact Hspace|].
  exact (proj1 (completion_prefix words_world 1 "oso mud") Hspace).
Defined.

(** X8 at work: the three words of dataset 1. *)
Lemma completions_count_witness :
  orders_by_count_desc order_by_count_desc /\
  List.length (complete_keywords words_world 1 "") = 3%nat.
Proof.
  split; [exact stable_count_desc_orders|].
  exact (proj1 (completions_count stable_count_desc_orders words_world 1 "")).
Defined.

(** X10 at work: no [dataset] at all, and a [dataset] that is a word. *)
Lemma get_parameter_errors_witness :
  owner_missing empty_world anonymous = false /\
  (get anonymous ∅ empty_world).1 = Ok (mkResponse HTTP_400_BAD_REQUEST None) /\
  int_of_str "one" = Raise ValueError /\
  (get anonymous {[ "dataset" := "one" ]} empty_world).1 = Raise ValueError /\
  (get anonymous {[ "dataset" := "one"; "q" := "mud" ]} empty_world).1 = Raise ValueError.
Proof.
  assert (Hu : owner_missing empty_world anonymous = false) by reflexivity.
  assert (Hone : int_of_str "one" = Raise ValueError) by reflexivity.
  assert (Hword : "one" <> EmptyString) by discriminate.
  assert (Hds : ({[ "dataset" := "one" ]} : gmap string string) !! "dataset"
                = Some "one") by reflexivity.
  assert (Hds' : ({[ "dataset" := "one"; "q" := "mud" ]} : gmap string string)
                   !! "dataset" = Some "one") by reflexivity.
  split; [exact Hu|]. split; [|split; [exact Hone|split]].
  - exact (proj1 (get_parameter_errors anonymous ∅ empty_world Hu) (or_introl eq_refl)).
  - exact (proj2 (get_parameter_errors anonymous _ empty_world Hu) "one" Hds Hword Hone).
  - exact (proj2 (get_parameter_errors anonymous _ empty_world Hu) "one" Hds' Hword Hone).
Defined.

(** X12 at work: one filter and one focus. *)
Lemma focus_joins_filters_witness :
  let data : gmap string pyval :=
    {[ "dataset" := PyDataset (mkDataset 1);
       "filters" := PyList [PyStr "f"]; "focus" := PyList [PyStr "g"] ]} in
  dict_get data "filters" (PyList []) = PyList [PyStr "f"] /\
  dict_get data "focus" (PyList []) = PyList [PyStr "g"] /\
  ExampleMessagesView.example_messages
    (<["filters" := PyList [PyStr "f"; PyStr "g"]]> (delete "focus" data))
  = ExampleMessagesView.example_messages data.
Proof.
  intros data.
  assert (Hfs : dict_get data "filters" (PyList []) = PyList [PyStr "f"]) by reflexivity.
  assert (Hfc : dict_get data "focus" (PyList []) = PyList [PyStr "g"]) by reflexivity.
  split; [exact Hfs|]. split; [exact Hfc|].
  exact (focus_joins_filters data [PyStr "f"] [PyStr "g"] Hfs Hfc).
Defined.

(** X13 at work: a null [filters]. *)
Lemma example_messages_null_filters_witness :
  let data : gmap string pyval :=
    {[ "dataset" := PyDataset (mkDataset 1); "filters" := PyNone ]} in
  data !! "dataset" = Some (PyDataset (mkDataset 1)) /\
  data !! "filters" = Some PyNone /\
  ExampleMessagesView.example_messages data = Raise TypeError.
Proof.
  intros data.
  assert (Hds : data !! "dataset" = Some (PyDataset (mkDataset 1))) by reflexivity.
  assert (Hf : data !! "filters" = Some PyNone) by reflexivity.
  split; [exact Hds|]. split; [exact Hf|].
  exact (example_messages_null_filters data (mkDataset 1) Hds (or_introl Hf)).
Defined.

(** X14 at work: an empty body sent to the search. *)
Lemma message_views_log_first_witness :
  owner_missing empty_world anonymous = false /\
  w_history (KeywordMessagesView.post (mkRequest anonymous ∅) empty_world).2
  = [history_row empty_world anonymous "search" ∅] /\
  (KeywordMessagesView.post (mkRequest anonymous ∅) empty_world).1
  = Ok (mkResponse HTTP_400_BAD_REQUEST
                   (Some {[ "dataset" := PyStr "This field is required." ]})).
Proof.
  assert (Hu : owner_missing empty_world anonymous = false) by reflexivity.
  destruct (message_views_log_first (mkRequest anonymous ∅) empty_world Hu)
    as (_ & Hsearch & _ & Hinvalid).
  split; [exact Hu|]. split.
  - rewrite Hsearch. reflexivity.
  - apply Hinvalid. reflexivity.
Defined.

(** X15 at work: a known type followed by an unknown one. *)
Lemma include_types_outcome_witness :
  message_type_get (PyStr "tweet") = Ok (PyInt 1) /\
  message_type_get (PyStr "video") = Raise DoesNotExist /\
  KeywordMessagesView.include_types (PyList [PyStr "tweet"; PyStr "video"; PyStr "retweet"])
  = Raise DoesNotExist.
Proof.
  split; [reflexivity|]. split; [reflexivity|].
  apply (proj2 (include_types_outcome [PyStr "tweet"; PyStr "video"; PyStr "retweet"])).
  exists [PyStr "tweet"], (PyStr "video"), [PyStr "retweet"].
  split; [reflexivity|]. split; [|reflexivity].
  constructor; [|constructor]. exists (PyInt 1). reflexivity.
Defined.

(** X16 at work: the keywords of a search. *)
Lemma search_defaults_witness :
  let data : gmap string pyval := {[ "dataset" := PyDataset (mkDataset 1) ]} in
  ("keywords" = "keywords" \/ "keywords" = "types_list") /\
  KeywordMessagesView.messages (<["keywords" := PyNone]> data)
  = KeywordMessagesView.messages (delete "keywords" data).
Proof.
  intros data.
  assert (Hk : "keywords" = "keywords" \/ "keywords" = "types_list")
    by (left; reflexivity).
  split; [exact Hk|exact (proj1 (search_defaults "keywords" data Hk))].
Defined.

(** X17 at work: an [id] that is no number. *)
Lemma dataset_get_raises_witness :
  DatasetView.get [mkDataset 1] {[ "id" := "one" ]} = Raise ValueError /\
  exists dataset_id,
    ({[ "id" := "one" ]} : gmap string string) !! "id" = Some dataset_id /\
    dataset_id <> EmptyString /\ int_of_str dataset_id = Raise ValueError.
Proof.
  assert (Hrun : DatasetView.get [mkDataset 1] {[ "id" := "one" ]} = Raise ValueError)
    by reflexivity.
  split; [exact Hrun|].
  exact (proj2 (dataset_get_raises [mkDataset 1] {[ "id" := "one" ]} ValueError Hrun)).
Defined.

(** X18 at work: an [id] that names a dataset, with a no-break space
    before the digit, and one that names none. *)
Lemma dataset_get_found_witness :
  let spaced := String (ascii_of_nat 160) "2" in
  DatasetView.get [mkDataset 1; mkDataset 2] {[ "id" := spaced ]}
  = Ok (mkPlainResponse HTTP_200_OK (PyDict [("id", PyInt 2)])) /\
  (exists dataset_id pk dataset,
      ({[ "id" := spaced ]} : gmap string string) !! "id" = Some dataset_id /\
      int_of_str dataset_id = Ok pk /\
      dataset ∈ [mkDataset 1; mkDataset 2] /\ dataset_pk dataset = pk /\
      dataset_serializer_data dataset = Ok (PyDict [("id", PyInt 2)])) /\
  int_of_str "7" = Ok 7 /\
  DatasetView.get [mkDataset 1; mkDataset 2] {[ "id" := "7" ]}
  = Ok (mkPlainResponse HTTP_400_BAD_REQUEST (PyStr "Dataset not exist")).
Proof.
  intros spaced.
  assert (Hfound : DatasetView.get [mkDataset 1; mkDataset 2] {[ "id" := spaced ]}
                   = Ok (mkPlainResponse HTTP_200_OK (PyDict [("id", PyInt 2)])))
    by reflexivity.
  split; [exact Hfound|]. split; [|split; [reflexivity|]].
  - exact (proj1 (dataset_get_found [mkDataset 1; mkDataset 2] {[ "id" := spaced ]})
                 _ Hfound eq_refl).
  - apply (proj2 (dataset_get_found [mkDataset 1; mkDataset 2] {[ "id" := "7" ]})
                 "7" 7); [reflexivity|discriminate|reflexivity|].
    intros dataset Hin.
    apply elem_of_cons in Hin as [->|Hin]; [discriminate|].
    apply list_elem_of_singleton in Hin as ->. discriminate.
Defined.

(** X19 at work: group 10 is deleted. *)
Lemma delete_marks_group_witness :
  let run := GroupView.delete (mkRequest anonymous ∅) {[ "id" := "10" ]} groups_world in
  List.filter (fun row => (group_id row =? 10)%Z) (gw_groups groups_world)
  = [mkGroup 10 1 false None 2 100] /\
  run.1 = Ok (Some (mkPlainResponse HTTP_204_NO_CONTENT PyNone)) /\
  List.length (gw_groups run.2) = 4%nat.
Proof.
  intros run.
  assert (Hfilter : List.filter (fun row => (group_id row =? 10)%Z)
                                (gw_groups groups_world)
                    = [mkGroup 10 1 false None 2 100]) by reflexivity.
  assert (Hne : "10" <> EmptyString) by discriminate.
  assert (Hid : ({[ "id" := "10" ]} : gmap string string) !! "id" = Some "10")
    by reflexivity.
  assert (Hu : owner_missing (gw_world groups_world) anonymous = false) by reflexivity.
  assert (Hint : int_of_str "10" = Ok 10) by reflexivity.
  destruct (delete_marks_group (mkRequest anonymous ∅) {[ "id" := "10" ]} groups_world
              "10" 10 _ Hu Hid Hne Hint Hfilter) as (Hresp & _ & Hlen).
  split; [exact Hfilter|]. split; [exact Hresp|exact Hlen].
Defined.

(** X20 at work: a [delete] without an [id], with an [id] that is a
    word, and with an [id] that names no group. *)
Lemma delete_failures_witness :
  owner_missing (gw_world groups_world) anonymous = false /\
  (GroupView.delete (mkRequest anonymous ∅) ∅ groups_world).1 = Ok None /\
  int_of_str "ten" = Raise ValueError /\
  (GroupView.delete (mkRequest anonymous ∅) {[ "id" := "ten" ]} groups_world).1
  = Raise ValueError /\
  gw_groups (GroupView.delete (mkRequest anonymous ∅) {[ "id" := "ten" ]} groups_world).2
  = gw_groups groups_world /\
  int_of_str "- 5" = Ok (-5) /\
  (GroupView.delete (mkRequest anonymous ∅) {[ "id" := "- 5" ]} groups_world).1
  = Raise DoesNotExist /\
  gw_groups (GroupView.delete (mkRequest anonymous ∅) {[ "id" := "- 5" ]} groups_world).2
  = gw_groups groups_world.
Proof.
  assert (Hu : owner_missing (gw_world groups_world) anonymous = false) by reflexivity.
  assert (Hten : int_of_str "ten" = Raise ValueError) by reflexivity.
  assert (Hfive : int_of_str "- 5" = Ok (-5)) by reflexivity.
  assert (Hid : ({[ "id" := "ten" ]} : gmap string string) !! "id" = Some "ten")
    by reflexivity.
  assert (Hid' : ({[ "id" := "- 5" ]} : gmap string string) !! "id" = Some "- 5")
    by reflexivity.
  assert (Hnone : forall row, row ∈ gw_groups groups_world -> group_id row <> -5).
  { intros row Hin. simpl in Hin.
    rewrite !elem_of_cons, elem_of_nil in Hin.
    destruct Hin as [->|[->|[->|[->|[]]]]]; discriminate. }
  pose proof (proj1 (delete_failures (mkRequest anonymous ∅) ∅ groups_world Hu)
                    (or_introl eq_refl)) as Hrun.
  pose proof (proj1 (proj2 (delete_failures (mkRequest anonymous ∅) {[ "id" := "ten" ]}
                                            groups_world Hu))
                    "ten" Hid ltac:(discriminate) Hten) as Hrun'.
  pose proof (proj2 (proj2 (delete_failures (mkRequest anonymous ∅) {[ "id" := "- 5" ]}
                                            groups_world Hu))
                    "- 5" (-5) Hid' ltac:(discriminate) Hfive Hnone) as Hrun''.
  split; [exact Hu|]. split; [exact (f_equal fst Hrun)|]. split; [exact Hten|].
  split; [exact (f_equal fst Hrun')|].
  split; [exact (f_equal (fun r => gw_groups r.2) Hrun')|]. split; [exact Hfive|].
  split; [exact (f_equal fst Hrun'')|exact (f_equal (fun r => gw_groups r.2) Hrun'')].
Defined.

(** X21 at work: the groups of dataset 1, by [order]. *)
Lemma get_lists_groups_witness :
  orders_groups order_groups /\
  (GroupView.get (mkRequest anonymous ∅) {[ "dataset" := "1" ]} groups_world).1
  = Ok (mkPlainResponse HTTP_200_OK (PyList [PyInt 11; PyInt 10])).
Proof.
  split; [exact sort_groups_orders|].
  assert (Hne : "1" <> EmptyString) by discriminate.
  assert (Hds : ({[ "dataset" := "1" ]} : gmap string string) !! "dataset" = Some "1")
    by reflexivity.
  assert (Hu : owner_missing (gw_world groups_world) anonymous = false) by reflexivity.
  assert (Hint : int_of_str "1" = Ok 1) by reflexivity.
  destruct (@get_lists_groups echo echo_messages sort_groups_orders
              (mkRequest anonymous ∅)
              {[ "dataset" := "1" ]} groups_world "1" 1 Hu Hds Hne Hint)
    as (l & _ & _ & _).
  reflexivity.
Defined.

(** X22 at work: after its deletion group 10 is gone from the list. *)
Lemma deleted_group_is_not_listed_witness :
  let gw' := (GroupView.delete (mkRequest anonymous ∅) {[ "id" := "10" ]} groups_world).2 in
  orders_groups order_groups /\
  GroupView.listed empty_world anonymous 1 (gw_groups gw')
  = Ok [mkGroup 11 1 false None 1 200] /\
  group_id (mkGroup 11 1 false None 1 200) <> 10.
Proof.
  intros gw'.
  assert (Hl : GroupView.listed empty_world anonymous 1 (gw_groups gw')
               = Ok [mkGroup 11 1 false None 1 200]) by reflexivity.
  assert (Hne : "10" <> EmptyString) by discriminate.
  split; [exact sort_groups_orders|]. split; [exact Hl|].
  assert (Hid : ({[ "id" := "10" ]} : gmap string string) !! "id" = Some "10")
    by reflexivity.
  assert (Hu : owner_missing (gw_world groups_world) anonymous = false) by reflexivity.
  assert (Hint : int_of_str "10" = Ok 10) by reflexivity.
  assert (Hfilter : List.filter (fun row => (group_id row =? 10)%Z)
                                (gw_groups groups_world)
                    = [mkGroup 10 1 false None 2 100]) by reflexivity.
  apply (@deleted_group_is_not_listed echo echo_messages sort_groups_orders
           (mkRequest anonymous ∅)
           {[ "id" := "10" ]} groups_world "10" 10 (mkGroup 10 1 false None 2 100)
           empty_world anonymous 1 _ Hu Hid Hne Hint Hfilter Hl).
  apply list_elem_of_here.
Defined.
